(** * staged.py: the staging/live web site pubsubber for ASF repositories

    A shallow embedding of [staged.py] (the deployment reconciliation
    engine) and the properties its specification states about it.

    Python [str] values are modelled as [string]; a string holds the UTF-8
    encoding of the text, so that the bytes a process writes and the text
    obtained from them by [.decode("utf-8")] are the same [string].  All the
    string operations the program uses ([startswith], [replace], [in],
    [os.path.split], the two regular expressions) only look at ASCII
    characters and therefore act on the encoding exactly as they act on the
    text. *)

From Stdlib Require Import String Ascii List ZArith Bool Lia DecimalString.
Import ListNotations.
Open Scope string_scope.

Set Implicit Arguments.

(** ** Python string methods *)

Module Str.

(** [s.startswith(p)] *)
Fixpoint startswith (s p : string) {struct p} : bool :=
  match p with
  | EmptyString => true
  | String c p' =>
      match s with
      | EmptyString => false
      | String a s' => Ascii.eqb a c && startswith s' p'
      end
  end.

(** [s[n:]] *)
Fixpoint drop (n : nat) (s : string) : string :=
  match n, s with
  | O, _ => s
  | S k, String _ r => drop k r
  | S _, EmptyString => EmptyString
  end.

(** [s[:n]] *)
Fixpoint take (n : nat) (s : string) : string :=
  match n, s with
  | O, _ => EmptyString
  | S k, String c r => String c (take k r)
  | S _, EmptyString => EmptyString
  end.

(** [s.endswith(p)] *)
Definition endswith (s p : string) : bool :=
  (String.length p <=? String.length s)%nat
  && String.eqb (drop (String.length s - String.length p) s) p.

(** [sub in s], also [re.search] of a pattern without metacharacters *)
Fixpoint contains (s sub : string) : bool :=
  startswith s sub
  || match s with
     | EmptyString => false
     | String _ r => contains r sub
     end.

(** [s.replace(old, new)] for a non-empty [old]: the occurrences are
    taken from the left and do not overlap.  [skip] counts the characters
    of the occurrence being replaced that are still to be passed over. *)
Fixpoint replace_from (old new : string) (skip : nat) (s : string) : string :=
  match s with
  | EmptyString => EmptyString
  | String c r =>
      match skip with
      | S k => replace_from old new k r
      | O => if startswith s old
             then new ++ replace_from old new (String.length old - 1) r
             else String c (replace_from old new 0 r)
      end
  end.

Definition replace (s old new : string) : string := replace_from old new 0 s.

(** [s.rfind(c)] for a one-character [c]: the highest index, or -1 *)
Fixpoint rfind (s : string) (c : ascii) : Z :=
  match s with
  | EmptyString => (-1)%Z
  | String a r =>
      let k := rfind r c in
      if (0 <=? k)%Z then (k + 1)%Z
      else if Ascii.eqb a c then 0%Z else (-1)%Z
  end.

(** [s.rstrip(c)] for a one-character [c] *)
Fixpoint rstrip (s : string) (c : ascii) : string :=
  match s with
  | EmptyString => EmptyString
  | String a r =>
      match rstrip r c with
      | EmptyString => if Ascii.eqb a c then EmptyString else String a EmptyString
      | r' => String a r'
      end
  end.

(** [s.split(c)] for a one-character separator: never the empty list *)
Fixpoint split (s : string) (c : ascii) : list string :=
  match s with
  | EmptyString => [EmptyString]
  | String a r =>
      if Ascii.eqb a c then EmptyString :: split r c
      else match split r c with
           | w :: ws => String a w :: ws
           | [] => [String a EmptyString]
           end
  end.

(** [sep.join(l)] *)
Fixpoint join (sep : string) (l : list string) : string :=
  match l with
  | [] => EmptyString
  | [x] => x
  | x :: r => x ++ sep ++ join sep r
  end.

(** [c * n] *)
Fixpoint repeat (c : ascii) (n : nat) : string :=
  match n with
  | O => EmptyString
  | S k => String c (repeat c k)
  end.

(** Whitespace as [str.isspace] has it.  The ASCII ones are single
    characters; the others are met in their UTF-8 encoding and are dealt
    with in [lstrip]. *)
Definition isspace (c : ascii) : bool :=
  let n := nat_of_ascii c in
  ((9 <=? n) && (n <=? 13) || (28 <=? n) && (n <=? 32))%nat.

(** The UTF-8 encodings of the whitespace code points above U+007F:
    U+0085, U+00A0, U+1680, U+2000..U+200A, U+2028, U+2029, U+202F,
    U+205F, U+3000. *)
Definition wide_spaces : list string :=
  let b (l : list nat) := string_of_list_ascii (map ascii_of_nat l) in
  [ b [194; 133]; b [194; 160]; b [225; 154; 128];
    b [226; 128; 128]; b [226; 128; 129]; b [226; 128; 130];
    b [226; 128; 131]; b [226; 128; 132]; b [226; 128; 133];
    b [226; 128; 134]; b [226; 128; 135]; b [226; 128; 136];
    b [226; 128; 137]; b [226; 128; 138]; b [226; 128; 168];
    b [226; 128; 169]; b [226; 128; 175]; b [226; 129; 159];
    b [227; 128; 128] ]%nat.

(** The number of bytes of the whitespace character [s] starts with
    (0 when it starts with none). *)
Definition space_width (s : string) : nat :=
  match s with
  | EmptyString => 0
  | String c _ =>
      if isspace c then 1
      else match find (startswith s) wide_spaces with
           | Some sp => String.length sp
           | None => 0
           end
  end.

(** [s.lstrip()], by [fuel] steps of one whitespace character *)
Fixpoint lstrip_fuel (fuel : nat) (s : string) : string :=
  match fuel with
  | O => s
  | S k => match space_width s with
           | O => s
           | n => lstrip_fuel k (drop n s)
           end
  end.

Definition lstrip (s : string) : string := lstrip_fuel (String.length s) s.

(** [s.rstrip()]: the characters after the last one that is not part of
    a whitespace character are dropped.  [keep s] is the length of the
    shortest prefix of [s] followed by whitespace only. *)
Fixpoint keep_fuel (fuel : nat) (s : string) : nat :=
  match fuel with
  | O => 0
  | S k =>
      match s with
      | EmptyString => 0
      | String c r =>
          match space_width s with
          | O => match keep_fuel k r with
                 | O => 1
                 | n => S n
                 end
          | w => match keep_fuel k (drop w s) with
                 | O => 0
                 | n => w + n
                 end
          end
      end
  end.

Definition strip (s : string) : string :=
  let t := lstrip s in take (keep_fuel (String.length t) t) t.

End Str.

(** ** [os.path] on POSIX ([posixpath]) *)

Module Path.

Definition sep : ascii := "/"%char.

(** [os.path.split(p)]: the pair (head, tail), where tail is what follows
    the last slash; trailing slashes are stripped from head unless it
    consists of slashes only. *)
Definition split (p : string) : string * string :=
  let i := Z.to_nat (Str.rfind p sep + 1) in
  let head := Str.take i p in
  let tail := Str.drop i p in
  let head :=
    if negb (String.eqb head "")
       && negb (String.eqb head (Str.repeat sep (String.length head)))
    then Str.rstrip head sep else head in
  (head, tail).

(** One round of the loop of [os.path.join(a, *p)] *)
Definition join2 (path b : string) : string :=
  if Str.startswith b "/" then b
  else if String.eqb path "" || Str.endswith path "/" then path ++ b
  else path ++ "/" ++ b.

(** [os.path.join(a, *p)] *)
Definition join (a : string) (p : list string) : string := fold_left join2 p a.

Definition isabs (p : string) : bool := Str.startswith p "/".

Definition is_nil {A} (l : list A) : bool :=
  match l with [] => true | _ => false end.

(** The loop body of [os.path.normpath] over the components of the path *)
Definition norm_step (initial_slashes : nat) (new_comps : list string)
           (comp : string) : list string :=
  if String.eqb comp "" || String.eqb comp "." then new_comps
  else if negb (String.eqb comp "..")
          || (Nat.eqb initial_slashes 0 && is_nil new_comps)
          || (negb (is_nil new_comps) && String.eqb (last new_comps "") "..")
       then new_comps ++ [comp]
       else if negb (is_nil new_comps) then removelast new_comps
            else new_comps.

(** [os.path.normpath(path)] *)
Definition normpath (path : string) : string :=
  if String.eqb path "" then "."
  else
    let initial_slashes :=
      if Str.startswith path "/"
      then if Str.startswith path "//" && negb (Str.startswith path "///")
           then 2 else 1
      else 0 in
    let comps := Str.split path sep in
    let new_comps := fold_left (norm_step initial_slashes) comps [] in
    let path := Str.repeat sep initial_slashes ++ Str.join "/" new_comps in
    if String.eqb path "" then "." else path.

(** [os.path.abspath(path)] in a process whose working directory is [cwd] *)
Definition abspath (cwd path : string) : string :=
  normpath (if isabs path then path else join cwd [path]).

End Path.

(** ** Module constants *)

Definition GIT_CMD := "/usr/bin/git".
Definition SVN_CMD := "/usr/bin/svn".
Definition ROOT_DIR := "/www".
Definition BLOGS_ROOT_DIR := "/www/blogs".
Definition CHECKOUT_TIMEOUT : Z := 180.
Definition PUBSUB_URL := "https://pubsub.apache.org:2070/".
Definition FASTLY_SVC_ID := "4bDOjcgRkWOJy4OpyuG8yT".
Definition FASTLY_BLOGS_SVC_ID := "xkIl7M5JXDA3qxX3KZeze1".

Definition SVN_UUIDS : list (string * string) :=
  [ ("13f79535-47bb-0310-9956-ffa450edef68", "https://svn-master.apache.org/repos/asf");
    ("90ea9780-b833-de11-8433-001ec94261de", "https://svn-master.apache.org/repos/infra") ].

(** ** The common-ancestor resolver *)

(** [range(lo, hi)] *)
Definition range (lo hi : nat) : list nat := seq lo (hi - lo).

(** [bits[lo:hi]] *)
Definition slice {A} (l : list A) (lo hi : nat) : list A :=
  firstn (hi - lo) (skipn lo l).

(** [common_parent(files)].  [os.path.split] returns a pair, so [bits] has
    two elements and the inner loop runs for [i = 0] only. *)
Definition common_parent (files : list string) : string :=
  let top_directory :=
    fold_left
      (fun top_directory filename =>
         if String.eqb top_directory "/"
            || negb (Str.startswith filename top_directory)
         then
           let bits := let (h, t) := Path.split filename in [h; t] in
           fold_left
             (fun top_directory i =>
                let tmp_path :=
                  Path.join (nth 0 bits "") (slice bits 1 i) ++ "/" in
                if forallb (fun fp => Str.startswith fp tmp_path) files
                then tmp_path else top_directory)
             (range 0 (length bits - 1)) top_directory
         else top_directory)
      files "/" in
  if String.eqb top_directory "" then "/" else top_directory.

(** ** Values, exceptions and the observable actions of the program *)

(** The values a decoded JSON message is made of.  Numbers are integers. *)
#[warnings="-register-all"]
Inductive pyval : Type :=
| VNone
| VBool (b : bool)
| VInt (z : Z)
| VStr (s : string)
| VList (l : list pyval)
| VDict (items : list (string * pyval)).

(** The exceptions the program can meet.  [CalledProcessError] carries the
    captured output of the process. *)
Inductive exn : Type :=
| CalledProcessError (output : string)
| TimeoutExpired
| NameError (name : string)
| AttributeError
| TypeError
| KeyError
| UnicodeDecodeError
| FileNotFoundError
| RequestException.

(** [isinstance(e, ValueError)] *)
Definition is_ValueError (e : exn) : bool :=
  match e with UnicodeDecodeError => true | _ => false end.

Inductive priority := LOG_INFO | LOG_WARNING.

(** An argument of a log line: the format string is kept apart from its
    arguments, so that the text of [repr] is not needed. *)
Inductive logarg :=
| AStr (s : string)
| ABytes (b : string)
| AVal (v : pyval)
| AExn (e : exn).

Inductive event : Type :=
| Syslog (p : priority) (fmt : string) (args : list logarg)
| Print (fmt : string) (args : list logarg)
| Chdir (path : string)
| Rmtree (path : string)
| Spawn (argv : list string) (stderr_to_stdout : bool) (timeout : option Z)
| HttpPost (url : string) (headers : list (string * string)) (timeout : Z)
| Sleep (seconds : Z).

(** What a process launched by [subprocess.check_output] does: how long it
    runs ([None]: it never ends), its exit status, what it wrote, and the
    directories that exist once it has ended or has been killed. *)
Record process := {
  duration : option Z;
  returncode : Z;
  output : string;
  dirs_after : string -> bool
}.

(** The queue entry [[source, branch, committer, root_deployment, deploytype]] *)
Record opts := {
  o_source : pyval;
  o_branch : string;
  o_committer : pyval;
  o_hostname : pyval;
  o_deploytype : string
}.

(** The state of the process and of the machine it runs on.  [dirs] tells
    which normalized absolute paths are directories.  [os_exec] and
    [http_post] are the outside world: the behaviour of the [n]-th process
    launched, given its command line, working directory and the directories
    it finds; the answer to the [n]-th HTTP request ([None]: it fails).
    [PUBLISH], [FASTLY_API_KEY] and [svnconfig] are fixed when the program
    starts; [py_repr] is the text the interpreter's [repr] gives for a list
    or a dict. *)
Record world := {
  dirs : string -> bool;
  cwd : string;
  trace : list event;
  nspawn : nat;
  os_exec : nat -> list string -> string -> (string -> bool) -> process;
  nposts : nat;
  http_post : nat -> string -> option string;
  PUBLISH : bool;
  FASTLY_API_KEY : string;
  svnconfig : list (string * list (string * string));
  py_repr : pyval -> string;
  PUBSUB_QUEUE : list (pyval * opts)
}.

(** ** Computations: state, exceptions, and calls that never return *)

Inductive outcome (A : Type) : Type :=
| Normal (a : A)
| Raised (e : exn)
| Blocked.
Arguments Raised {A} e.
Arguments Blocked {A}.

Definition M (A : Type) : Type := world -> outcome A * world.

Definition ret {A} (a : A) : M A := fun w => (Normal a, w).

Definition bind {A B} (m : M A) (k : A -> M B) : M B :=
  fun w => match m w with
           | (Normal a, w') => k a w'
           | (Raised e, w') => (Raised e, w')
           | (Blocked, w') => (Blocked, w')
           end.

Definition raise {A} (e : exn) : M A := fun w => (Raised e, w).

(** [try: m  except ...: h e], where [h e] is [None] when no clause fits *)
Definition try_except {A} (m : M A) (h : exn -> option (M A)) : M A :=
  fun w => match m w with
           | (Raised e, w') =>
               match h e with
               | Some k => k w'
               | None => (Raised e, w')
               end
           | r => r
           end.

Declare Scope monad_scope.
Delimit Scope monad_scope with monad.
Notation "x <- m ;; k" := (bind m (fun x => k))
  (at level 61, m at next level, right associativity) : monad_scope.
Notation "m ;; k" := (bind m (fun _ => k))
  (at level 61, right associativity) : monad_scope.
Open Scope monad_scope.

(** Updates of single fields of the state *)
Definition set_trace (t : list event) (w : world) : world :=
  {| dirs := dirs w; cwd := cwd w; trace := t;
     nspawn := nspawn w; os_exec := os_exec w;
     nposts := nposts w; http_post := http_post w;
     PUBLISH := PUBLISH w; FASTLY_API_KEY := FASTLY_API_KEY w;
     svnconfig := svnconfig w; py_repr := py_repr w;
     PUBSUB_QUEUE := PUBSUB_QUEUE w |}.

Definition set_dirs (d : string -> bool) (w : world) : world :=
  {| dirs := d; cwd := cwd w; trace := trace w;
     nspawn := nspawn w; os_exec := os_exec w;
     nposts := nposts w; http_post := http_post w;
     PUBLISH := PUBLISH w; FASTLY_API_KEY := FASTLY_API_KEY w;
     svnconfig := svnconfig w; py_repr := py_repr w;
     PUBSUB_QUEUE := PUBSUB_QUEUE w |}.

Definition set_cwd (c : string) (w : world) : world :=
  {| dirs := dirs w; cwd := c; trace := trace w;
     nspawn := nspawn w; os_exec := os_exec w;
     nposts := nposts w; http_post := http_post w;
     PUBLISH := PUBLISH w; FASTLY_API_KEY := FASTLY_API_KEY w;
     svnconfig := svnconfig w; py_repr := py_repr w;
     PUBSUB_QUEUE := PUBSUB_QUEUE w |}.

Definition set_nspawn (n : nat) (w : world) : world :=
  {| dirs := dirs w; cwd := cwd w; trace := trace w;
     nspawn := n; os_exec := os_exec w;
     nposts := nposts w; http_post := http_post w;
     PUBLISH := PUBLISH w; FASTLY_API_KEY := FASTLY_API_KEY w;
     svnconfig := svnconfig w; py_repr := py_repr w;
     PUBSUB_QUEUE := PUBSUB_QUEUE w |}.

Definition set_nposts (n : nat) (w : world) : world :=
  {| dirs := dirs w; cwd := cwd w; trace := trace w;
     nspawn := nspawn w; os_exec := os_exec w;
     nposts := n; http_post := http_post w;
     PUBLISH := PUBLISH w; FASTLY_API_KEY := FASTLY_API_KEY w;
     svnconfig := svnconfig w; py_repr := py_repr w;
     PUBSUB_QUEUE := PUBSUB_QUEUE w |}.

Definition set_queue (q : list (pyval * opts)) (w : world) : world :=
  {| dirs := dirs w; cwd := cwd w; trace := trace w;
     nspawn := nspawn w; os_exec := os_exec w;
     nposts := nposts w; http_post := http_post w;
     PUBLISH := PUBLISH w; FASTLY_API_KEY := FASTLY_API_KEY w;
     svnconfig := svnconfig w; py_repr := py_repr w;
     PUBSUB_QUEUE := q |}.

Definition emit (e : event) : M unit :=
  fun w => (Normal tt, set_trace (trace w ++ [e]) w).

Definition syslog (p : priority) (fmt : string) (args : list logarg) : M unit :=
  emit (Syslog p fmt args).

(** Whether [path], as the process sees it, is a directory *)
Definition is_dir (w : world) (path : string) : bool :=
  dirs w (Path.abspath (cwd w) path).

(** [os.path.isdir(path)] *)
Definition isdir (path : string) : M bool :=
  fun w => (Normal (is_dir w path), w).

(** [os.chdir(path)] *)
Definition chdir (path : string) : M unit :=
  fun w =>
    let target := Path.abspath (cwd w) path in
    if dirs w target
    then (Normal tt, set_cwd target (set_trace (trace w ++ [Chdir path]) w))
    else (Raised FileNotFoundError, w).

(** [p] is the directory [root] or lies below it *)
Definition within (root p : string) : bool :=
  String.eqb p root
  || Str.startswith p (if Str.endswith root "/" then root else root ++ "/").

(** The directories [d] without [target] and everything below it *)
Definition removed (d : string -> bool) (target : string) : string -> bool :=
  fun p => d p && negb (within target p).

(** [shutil.rmtree(path)]: the directory and everything below it is gone *)
Definition rmtree (path : string) : M unit :=
  fun w =>
    let target := Path.abspath (cwd w) path in
    (Normal tt,
     set_dirs (removed (dirs w) target)
              (set_trace (trace w ++ [Rmtree path]) w)).

(** The command line as [subprocess] needs it: strings only *)
Fixpoint argv_strings (args : list pyval) : option (list string) :=
  match args with
  | [] => Some []
  | VStr s :: r => option_map (cons s) (argv_strings r)
  | _ :: _ => None
  end.

(** [subprocess.check_output(args, stderr=..., timeout=...)].  A process
    that outlives the timeout is killed and [TimeoutExpired] is raised;
    without a timeout the call returns when the process ends, if ever. *)
Definition check_output (args : list pyval) (stderr_to_stdout : bool)
           (timeout : option Z) : M string :=
  fun w =>
    match argv_strings args with
    | None => (Raised TypeError, w)
    | Some argv =>
        let p := os_exec w (nspawn w) argv (cwd w) (dirs w) in
        let w' :=
          set_dirs (dirs_after p)
            (set_nspawn (S (nspawn w))
               (set_trace (trace w ++ [Spawn argv stderr_to_stdout timeout]) w)) in
        let finished :=
          if (returncode p =? 0)%Z then Normal (output p)
          else Raised (CalledProcessError (output p)) in
        match duration p, timeout with
        | Some d, Some t => if (d <=? t)%Z then (finished, w')
                            else (Raised TimeoutExpired, w')
        | Some d, None => (finished, w')
        | None, Some t => (Raised TimeoutExpired, w')
        | None, None => (Blocked, w')
        end
    end.

(** ** Dynamic typing: the operations of the program on decoded values *)

(** [bool(v)] *)
Definition truthy (v : pyval) : bool :=
  match v with
  | VNone => false
  | VBool b => b
  | VInt z => negb (z =? 0)%Z
  | VStr s => negb (String.eqb s "")
  | VList l => negb (Path.is_nil l)
  | VDict items => negb (Path.is_nil items)
  end.

(** [str(v)], which is also what [%s] and an f-string give *)
Definition py_str (repr : pyval -> string) (v : pyval) : string :=
  match v with
  | VNone => "None"
  | VBool true => "True"
  | VBool false => "False"
  | VInt z => NilZero.string_of_int (Z.to_int z)
  | VStr s => s
  | VList _ | VDict _ => repr v
  end.

(** [v == s] for a string [s] *)
Definition eq_str (v : pyval) (s : string) : bool :=
  match v with
  | VStr t => String.eqb t s
  | _ => false
  end.

(** [d.get(key, default)] on the items of a dict: the last binding of a
    key is the one a decoded JSON object keeps *)
Fixpoint dict_get (items : list (string * pyval)) (key : string)
         (default : pyval) : pyval :=
  match items with
  | [] => default
  | (k, v) :: r =>
      if String.eqb k key && negb (existsb (fun kv => String.eqb (fst kv) key) r)
      then v else dict_get r key default
  end.

(** [key in d] on the items of a dict *)
Definition dict_has (items : list (string * pyval)) (key : string) : bool :=
  existsb (fun kv => String.eqb (fst kv) key) items.

(** [v.get(key, default)]: only a dict has the method *)
Definition py_get (v : pyval) (key : string) (default : pyval) : M pyval :=
  match v with
  | VDict items => ret (dict_get items key default)
  | _ => raise AttributeError
  end.

(** [key in v] for a string [key]: a key of a dict, an element of a list,
    a substring of a string; other values are not containers *)
Definition py_in (key : string) (v : pyval) : M bool :=
  match v with
  | VDict items => ret (dict_has items key)
  | VList l => ret (existsb (fun x => eq_str x key) l)
  | VStr s => ret (Str.contains s key)
  | _ => raise TypeError
  end.

(** [v[key]] for a string [key]: lists and strings are indexed by
    integers, other values are not subscriptable *)
Definition py_getitem (v : pyval) (key : string) : M pyval :=
  match v with
  | VDict items =>
      if dict_has items key then ret (dict_get items key VNone)
      else raise KeyError
  | _ => raise TypeError
  end.

(** A value that can be the key of a dict *)
Definition hashable (v : pyval) : bool :=
  match v with
  | VList _ | VDict _ => false
  | _ => true
  end.

(** Equality of two hashable values: [True == 1] and [False == 0] *)
Definition key_eqb (a b : pyval) : bool :=
  let num (v : pyval) : option Z :=
    match v with
    | VBool true => Some 1%Z
    | VBool false => Some 0%Z
    | VInt z => Some z
    | _ => None
    end in
  match a, b with
  | VNone, VNone => true
  | VStr s, VStr t => String.eqb s t
  | _, _ => match num a, num b with
            | Some x, Some y => (x =? y)%Z
            | _, _ => false
            end
  end.

(** ** UTF-8 *)

Module Utf8.

Definition between (lo hi n : nat) : bool := ((lo <=? n) && (n <=? hi))%nat.

Definition cont (c : ascii) : bool := between 128 191 (nat_of_ascii c).

(** A well-formed UTF-8 sequence: shortest encodings only, no surrogates,
    nothing above U+10FFFF.  This is when [bytes.decode("utf-8")] succeeds. *)
Fixpoint valid (s : string) : bool :=
  match s with
  | EmptyString => true
  | String c0 r =>
      let b0 := nat_of_ascii c0 in
      if (b0 <? 128)%nat then valid r
      else if between 194 223 b0 then
        match r with
        | String c1 r1 => cont c1 && valid r1
        | _ => false
        end
      else if between 224 239 b0 then
        match r with
        | String c1 (String c2 r2) =>
            let b1 := nat_of_ascii c1 in
            (if (b0 =? 224)%nat then between 160 191 b1
             else if (b0 =? 237)%nat then between 128 159 b1
             else cont c1)
            && cont c2 && valid r2
        | _ => false
        end
      else if between 240 244 b0 then
        match r with
        | String c1 (String c2 (String c3 r3)) =>
            let b1 := nat_of_ascii c1 in
            (if (b0 =? 240)%nat then between 144 191 b1
             else if (b0 =? 244)%nat then between 128 143 b1
             else cont c1)
            && cont c2 && cont c3 && valid r3
        | _ => false
        end
      else false
  end.

End Utf8.

(** [b.decode("utf-8")] *)
Definition decode_utf8 (b : string) : M string :=
  if Utf8.valid b then ret b else raise UnicodeDecodeError.

(** ** The purge notifier *)

(** [purge_site(hostname, svcid)]: a soft purge request to Fastly, whose
    answer is logged.  A request that fails raises. *)
Definition purge_site (hostname : pyval) (svcid : string) : M unit :=
  fun w =>
    let url := "https://api.fastly.com/service/" ++ svcid ++ "/purge/"
               ++ py_str (py_repr w) hostname in
    let w' :=
      set_nposts (S (nposts w))
        (set_trace
           (trace w ++ [HttpPost url
                          [("Accept", "application/json");
                           ("Fastly-Soft-Purge", "1");
                           ("Fastly-Key", FASTLY_API_KEY w)] 10]) w) in
    match http_post w (nposts w) url with
    | None => (Raised RequestException, w')
    | Some text =>
        syslog LOG_INFO "Fastly PURGE request for %s responded: %s"
               [AVal hostname; AStr text] w'
    end.

(** ** The VCS executor *)

(** [checkout_git_repo(path, source, branch)] *)
Definition checkout_git_repo (path : string) (source : pyval) (branch : string)
  : M unit :=
  chdir ROOT_DIR ;;
  (* If dir already exists as a dir, delete it first *)
  exists_ <- isdir path ;;
  (if exists_ : bool
   then syslog LOG_INFO "Doing recursive delete of path %s" [AStr path] ;;
        rmtree path
   else ret tt) ;;
  (* Try to pull in the repo, if it fails, just log it for now. *)
  syslog LOG_INFO "Checking out %s (%s) as %s..."
         [AVal source; AStr branch; AStr path] ;;
  try_except
    (check_output [VStr GIT_CMD; VStr "clone"; VStr "-b"; VStr branch;
                   VStr "--single-branch"; source; VStr path]
                  false (Some CHECKOUT_TIMEOUT) ;;
     syslog LOG_INFO "Checkout worked!" [])
    (fun e =>
       match e with
       | CalledProcessError out =>
           Some (syslog LOG_WARNING "Could not check out %s: %s"
                        [AVal source; ABytes out])
       | TimeoutExpired =>
           Some (syslog LOG_WARNING "Could not check out %s: operation timed out"
                        [AVal source])
       | _ => None
       end).

(** [do_git_pull(path, branch)].  The handler of [TimeoutExpired] formats
    its message with [source], a name that is bound neither in the function
    nor in the module: evaluating it raises [NameError]. *)
Definition do_git_pull (path branch : string) : M unit :=
  chdir path ;;
  (* Fetch new changes into .git/ ... *)
  fetched <-
    try_except
      (check_output [VStr GIT_CMD; VStr "fetch"; VStr "origin"; VStr branch]
                    true (Some CHECKOUT_TIMEOUT) ;;
       syslog LOG_INFO "Successfully completed `git fetch` into %s" [AStr path] ;;
       ret true)
      (fun e =>
         match e with
         | CalledProcessError out =>
             Some (syslog LOG_WARNING "Command `git fetch origin %s` failed in %s: %s"
                          [AStr branch; AStr path; ABytes out] ;;
                   ret false)
         | TimeoutExpired => Some (raise (NameError "source"))
         | _ => None
         end) ;;
  if fetched : bool
  then
    (* Merge changes forcibly via git reset --hard origin/$branch. *)
    try_except
      (syslog LOG_INFO "Refreshing content in %s with: git reset --hard %s"
              [AStr path; AStr branch] ;;
       check_output [VStr GIT_CMD; VStr "reset"; VStr "--hard";
                     VStr ("origin/" ++ branch)] true None ;;
       syslog LOG_INFO "%s was successfully updated." [AStr path])
      (fun e =>
         match e with
         | CalledProcessError out =>
             Some (syslog LOG_WARNING
                          "Command `git reset --hard origin/%s` failed in %s: %s"
                          [AStr branch; AStr path; ABytes out])
         | _ => None
         end)
  else ret tt.

(** [do_svn_up(path)] *)
Definition do_svn_up (path : string) : M unit :=
  chdir path ;;
  try_except
    (check_output [VStr SVN_CMD; VStr "up"] true (Some CHECKOUT_TIMEOUT) ;;
     syslog LOG_INFO "Successfully completed `svn up` into %s" [AStr path])
    (fun e =>
       match e with
       | CalledProcessError out =>
           Some (syslog LOG_WARNING "Command `svn up` failed in %s: %s"
                        [AStr path; ABytes out])
       | TimeoutExpired =>
           Some (syslog LOG_WARNING "Could not run svn up: operation timed out" [])
       | _ => None
       end).

(** ** Validation and reconciliation: [deploy_site] *)

(** The character class [[-a-zA-Z0-9/.]] *)
Definition deploydir_char (c : ascii) : bool :=
  let n := nat_of_ascii c in
  (Ascii.eqb c "-" || Utf8.between 97 122 n || Utf8.between 65 90 n
   || Utf8.between 48 57 n || Ascii.eqb c "/" || Ascii.eqb c ".")%char.

(** The character class [[-._a-zA-Z0-9/]] *)
Definition subdir_char (c : ascii) : bool :=
  let n := nat_of_ascii c in
  (Ascii.eqb c "-" || Ascii.eqb c "." || Ascii.eqb c "_"
   || Utf8.between 97 122 n || Utf8.between 65 90 n
   || Utf8.between 48 57 n || Ascii.eqb c "/")%char.

(** Where [$] matches: at the end of the string, and just before a line
    feed that ends the string. *)
Definition at_dollar (rest : string) : bool :=
  String.eqb rest "" || String.eqb rest (String "010" "").

(** [re.match(r"^[cls]+$", s)] finds a match: one character of the class,
    then either the end or more of the same. *)
Fixpoint re_match_class_plus (cls : ascii -> bool) (s : string) : bool :=
  match s with
  | EmptyString => false
  | String c r => cls c && (at_dollar r || re_match_class_plus cls r)
  end.

(** The verdict of the pre-validation block of [deploy_site]: it lets the
    request through, logs a warning and returns, or fails on a source that
    is not a string. *)
Inductive verdict :=
| Accepted
| Rejected (fmt : string) (args : list logarg)
| Faulted (e : exn).

(** The pre-validation block of [deploy_site], in a process whose working
    directory is [here] *)
Definition prevalidation (here deploydir : string) (source : pyval)
           (branch deploytype : string) : verdict :=
  let path := Path.join ROOT_DIR [deploydir] in
  if negb (re_match_class_plus deploydir_char
             (Str.replace deploydir ".apache.org" ""))
     || Str.contains deploydir ".."
  then Rejected "Invalid deployment dir, %s!" [AStr deploydir]
  else
  (* /www/foo.a.o != /www/foo.a.o/../bar.a.o etc, disallow translations. *)
  if negb (String.eqb (Path.abspath here path) path)
  then Rejected
         "Invalid deployment dir, %s! (translated path diverges from base web site path)"
         [AStr deploydir]
  else
  match (if negb (String.eqb deploytype "svn")
         then match source with
              | VStr s =>
                  Some (negb (Str.startswith s "https://gitbox.apache.org/repos/asf/")
                        && negb (Str.startswith s "https://github.com/apache/"))
              | _ => None  (* source.startswith *)
              end
         else Some false) with
  | None => Faulted AttributeError
  | Some true => Rejected "Invalid source URL, %s!" [AVal source]
  | Some false =>
      if String.eqb branch ""
      then Rejected "Invalid branch, %s!" [AStr branch]
      else Accepted
  end.

(** The directory [deploy_site] works on once the request is accepted *)
Definition target_path (deploydir deploytype : string) : string :=
  if String.eqb deploytype "blog"  (* blogs have a different root *)
  then Path.join BLOGS_ROOT_DIR [Str.replace deploydir ".blog" ""]
  else Path.join ROOT_DIR [deploydir].

(** The rest of [deploy_site]: what is on disk at [path] decides what is
    done. *)
Definition reconcile (path : string) (source : pyval) (branch deploytype : string)
  : M unit :=
  (* First check if staging dir is already being used. *)
  used <- isdir path ;;
  if used : bool
  then
    syslog LOG_INFO "%s is an existing staging dir, checking it..." [AStr path] ;;
    (* If $path/.svn exists, it's an old svnwcsub checkout, clobber it. *)
    legacy <- isdir (Path.join path [".svn"]) ;;
    if legacy : bool
    then
      if String.eqb deploytype "svn"  (* we want svn anyway, svn up *)
      then syslog LOG_WARNING
             "%s is a subversion directory, running svn up to update" [AStr path] ;;
           do_svn_up path
      else syslog LOG_WARNING
             "%s appears to be an old subversion directory, clobbering it!"
             [AStr path] ;;
           checkout_git_repo path source branch
    else
      chdir path ;;
      on_disk <-
        try_except
          (o1 <- check_output [VStr GIT_CMD; VStr "config"; VStr "--get";
                               VStr "remote.origin.url"] false None ;;
           t1 <- decode_utf8 o1 ;;
           let csource := Str.strip t1 in
           o2 <- check_output [VStr GIT_CMD; VStr "symbolic-ref";
                               VStr "--short"; VStr "HEAD"] false None ;;
           t2 <- decode_utf8 o2 ;;
           let cbranch := Str.strip t2 in
           ret (Some (csource, cbranch)))
          (fun e =>
             match e with
             | CalledProcessError out =>
                 Some (syslog LOG_WARNING
                         "Could not determine original source of %s, clobbering: %s"
                         [AStr path; ABytes out] ;;
                       checkout_git_repo path source branch ;;
                       ret None)
             | _ => None
             end) ;;
      match on_disk with
      | None => ret tt
      | Some (csource, cbranch) =>
          (* If different repo, clobber dir and re-checkout *)
          if negb (eq_str source csource)
          then syslog LOG_INFO
                 "Source repo for %s is not %s (%s), clobbering repo."
                 [AStr path; AVal source; AStr csource] ;;
               checkout_git_repo path source branch
          (* Or if different branch, clobber as well *)
          else if negb (String.eqb cbranch branch)
          then syslog LOG_INFO
                 "Source branch for %s is not %s (%s), clobbering repo."
                 [AStr path; AStr branch; AStr cbranch] ;;
               checkout_git_repo path source branch
          (* Or it could be all good, just needs a pull *)
          else syslog LOG_INFO
                 "Source and branch match on-disk, doing git pull" [] ;;
               do_git_pull path branch
      end
  else
    (* Otherwise, do fresh checkout if git, complain (for now) if svn *)
    if String.eqb deploytype "svn"
    then syslog LOG_INFO
           "%s is a not an existing svn checkout, ignoring payload for now"
           [AStr path]
    else syslog LOG_INFO "%s is a new staging dir, doing fresh checkout"
                [AStr path] ;;
         checkout_git_repo path source branch.

(** [deploy_site(deploydir, source, branch, committer, deploytype)] *)
Definition deploy_site (deploydir source : pyval) (branch : string)
           (committer : pyval) (deploytype : string) : M unit :=
  match deploydir with
  | VStr deploydir =>
      here <- (fun w => (Normal (cwd w), w)) ;;
      match prevalidation here deploydir source branch deploytype with
      | Rejected fmt args => syslog LOG_WARNING fmt args
      | Faulted e => raise e
      | Accepted => reconcile (target_path deploydir deploytype) source branch deploytype
      end
  | _ => raise TypeError  (* os.path.join(ROOT_DIR, deploydir) *)
  end.

(** ** The deploy queue and the drain loop *)

(** [d[key] = value] on a dict kept as the list of its items, in insertion
    order: the value of a key that is present is replaced where it stands. *)
Fixpoint dict_set {V} (d : list (pyval * V)) (key : pyval) (value : V)
  : list (pyval * V) :=
  match d with
  | [] => [(key, value)]
  | (k, v) :: r =>
      if key_eqb k key then (k, value) :: r
      else (k, v) :: dict_set r key value
  end.

(** [PUBSUB_QUEUE[deploydir] = [...]]: a key must be hashable *)
Definition upsert (deploydir : pyval) (o : opts) : M unit :=
  if hashable deploydir
  then fun w => (Normal tt, set_queue (dict_set (PUBSUB_QUEUE w) deploydir o) w)
  else raise TypeError.

(** [for x in l: body(x)] *)
Fixpoint for_each {A} (l : list A) (body : A -> M unit) : M unit :=
  match l with
  | [] => ret tt
  | x :: r => body x ;; for_each r body
  end.

(** The body of the [for] loop of [deploy.run]: one queued entry *)
Definition run_entry (entry : pyval * opts) : M unit :=
  let (deploydir, o) := entry in
  try_except
    (let source := o_source o in
     let branch := o_branch o in
     let committer := o_committer o in
     let hostname := o_hostname o in
     let deploytype := o_deploytype o in
     deploy_site deploydir source branch committer deploytype ;;
     publish <- (fun w => (Normal (PUBLISH w), w)) ;;
     key <- (fun w => (Normal (FASTLY_API_KEY w), w)) ;;
     if publish && negb (String.eqb key "")
     then
       (if String.eqb deploytype "blog"
        then match deploydir with
             | VStr d =>
                 let real_hostname := Str.replace d ".blog" "" in
                 (* purge blog.$project.a.o *)
                 purge_site (VStr (real_hostname ++ ".blog.apache.org"))
                            FASTLY_BLOGS_SVC_ID
             | _ => raise AttributeError
             end
        else ret tt) ;;
       purge_site hostname FASTLY_SVC_ID ;;  (* purge $project.a.o *)
       if eq_str hostname "www.apache.org"
       then purge_site (VStr "apache.org") FASTLY_SVC_ID
       else ret tt
     else ret tt)
    (fun e =>
       Some (syslog LOG_WARNING "BORK: Could not deploy to %s: %s"
                    [AVal deploydir; AExn e])).

(** [XPQ = PUBSUB_QUEUE; PUBSUB_QUEUE = {}]: the queue is taken and
    replaced by an empty one. *)
Definition drain : M (list (pyval * opts)) :=
  XPQ <- (fun w => (Normal (PUBSUB_QUEUE w), w)) ;;
  (fun w => (Normal tt, set_queue [] w)) ;;
  ret XPQ.

(** One round of the [while True] loop of [deploy.run]: the queue is
    drained, every entry is run, then the thread sleeps. *)
Definition run_cycle : M unit :=
  XPQ <- drain ;;
  for_each XPQ run_entry ;;
  emit (Sleep 5).

(** [n] rounds of [deploy.run] *)
Fixpoint run (n : nat) : M unit :=
  match n with
  | O => ret tt
  | S k => run_cycle ;; run k
  end.

(** ** The event normalizer: [listen] *)

(** The characters of a text, one string each *)
Fixpoint utf8_chars (s : string) : list string :=
  match s with
  | EmptyString => []
  | String c r =>
      match utf8_chars r with
      | w :: ws =>
          match w with
          | String c' _ =>
              if Utf8.cont c' then String c w :: ws
              else String c EmptyString :: w :: ws
          | EmptyString => String c EmptyString :: ws
          end
      | [] => [String c EmptyString]
      end
  end.

(** [iter(v)]: the keys of a dict, the elements of a list, the characters
    of a string *)
Definition py_iter (v : pyval) : M (list pyval) :=
  match v with
  | VDict items => ret (map (fun kv => VStr (fst kv)) items)
  | VList l => ret l
  | VStr s => ret (map VStr (utf8_chars s))
  | _ => raise TypeError
  end.

(** [v.startswith(p)]: only a string has the method *)
Definition py_startswith (v : pyval) (p : string) : M bool :=
  match v with
  | VStr s => ret (Str.startswith s p)
  | _ => raise AttributeError
  end.

(** [all(fp.startswith(p) for fp in files)] *)
Fixpoint all_startswith (files : list pyval) (p : string) : M bool :=
  match files with
  | [] => ret true
  | fp :: r =>
      b <- py_startswith fp p ;;
      if b : bool then all_startswith r p else ret false
  end.

(** A [for] loop that carries one variable *)
Fixpoint fold_m {A S} (l : list A) (body : S -> A -> M S) (s : S) : M S :=
  match l with
  | [] => ret s
  | x :: r => s' <- body s x ;; fold_m r body s'
  end.

(** [common_parent(files)] as [listen] calls it, on whatever the message
    holds under ["changed"] *)
Definition common_parent_py (changed : pyval) : M string :=
  files <- py_iter changed ;;
  top_directory <-
    fold_m files
      (fun top_directory filename =>
         go <- (if String.eqb top_directory "/" then ret true
                else b <- py_startswith filename top_directory ;;
                     ret (negb b)) ;;
         if go : bool
         then
           match filename with
           | VStr f =>
               let bits := let (h, t) := Path.split f in [h; t] in
               fold_m (range 0 (length bits - 1))
                 (fun top_directory i =>
                    let tmp_path :=
                      Path.join (nth 0 bits "") (slice bits 1 i) ++ "/" in
                    ok <- all_startswith files tmp_path ;;
                    ret (if ok : bool then tmp_path else top_directory))
                 top_directory
           | _ => raise TypeError  (* os.path.split *)
           end
         else ret top_directory)
      "/" ;;
  ret (if String.eqb top_directory "" then "/" else top_directory).

(** [d.get(key)] on a dict with string values *)
Fixpoint assoc {V} (d : list (string * V)) (key : string) : option V :=
  match d with
  | [] => None
  | (k, v) :: r => if String.eqb k key then Some v else assoc r key
  end.

(** The svnpubsub -> publish conversion at the head of the loop body of
    [listen]: the payload the rest of the body works on. *)
Definition svn_conversion (payload : pyval) : M pyval :=
  has_commit <- py_in "commit" payload ;;
  is_svn <-
    (if has_commit : bool
     then c <- py_getitem payload "commit" ;;
          match c with
          | VDict items => ret (eq_str (dict_get items "type" (VStr "")) "svn")
          | _ => ret false
          end
     else ret false) ;;
  if is_svn : bool
  then
    commit <- py_getitem payload "commit" ;;
    match commit with
    | VDict citems =>
        let repository := dict_get citems "repository" (VStr "") in
        (* If this is from a repo we know of... *)
        if negb (hashable repository) then raise TypeError
        else
        match match repository with
              | VStr svn_uuid => assoc SVN_UUIDS svn_uuid
              | _ => None
              end with
        | Some svn_root =>
            cp <- common_parent_py (dict_get citems "changed" (VList [])) ;;
            let svn_url := Path.join svn_root [cp] in
            emit (Print "Found commit from %s..." [AStr svn_url]) ;;
            cfg <- (fun w => (Normal (svnconfig w), w)) ;;
            if negb (Path.is_nil cfg)
            then
              fold_m (match assoc cfg "track" with Some t => t | None => [] end)
                (fun payload (entry : string * string) =>
                   let (target, url) := entry in
                   (* discard config default entries, infra and cms *)
                   if Str.startswith svn_url url && Str.startswith target "/"
                   then
                     emit (Print "Found SVN match for %s in %s, faking a publish payload"
                                 [AStr url; AStr target]) ;;
                     let project :=
                       if Str.contains target "/www/"
                       then (* /www/commons.apache.org/foo -> commons *)
                         Str.replace (snd (Path.split target)) ".apache.org" ""
                       else "infra" in
                     ret (VDict
                            [("publish",
                              VDict [("project", VStr project);
                                     ("source", VStr svn_url);
                                     ("pusher", dict_get citems "committer" (VStr "root"));
                                     ("deploytype", VStr "svn");
                                     ("target", VStr target)])])
                   else ret payload)
                payload
            else ret payload
        | None => ret payload
        end
    | _ => ret payload
    end
  else ret payload.

(** [a += s] for a string [s]: concatenation on a string; a list is
    extended in place by the characters of [s]; other values have no sum
    with a string. *)
Definition py_iadd_str (a : pyval) (s : string) : M pyval :=
  match a with
  | VStr t => ret (VStr (t ++ s))
  | VList l => ret (VList (l ++ map VStr (utf8_chars s)))
  | _ => raise TypeError
  end.

(** The body of the [async for] loop of [listen]: one decoded message *)
Definition listen_body (payload : pyval) : M unit :=
  try_except
    (publish <- (fun w => (Normal (PUBLISH w), w)) ;;
     repr <- (fun w => (Normal (py_repr w), w)) ;;
     let expected_action := if negb publish then "staging" else "publish" in
     (* svnpubsub -> publish conversion *)
     payload <- svn_conversion payload ;;
     has_action <- py_in expected_action payload ;;
     if has_action : bool
     then
       action <- py_getitem payload expected_action ;;
       project <- py_get action "project" VNone ;;
       source <- py_get action "source" VNone ;;
       b <- py_get action "branch" (VStr "asf-site") ;;
       branch <- match b with
                 | VStr s => ret (Str.replace s "refs/heads/" "")
                 | _ => raise AttributeError
                 end ;;
       profile <- py_get action "profile" (VStr "") ;;
       committer <- py_get action "pusher" (VStr "root") ;;
       subdir <- py_get action "subdir" (VStr "") ;;
       deploytype <- py_get action "type" (VStr "website") ;;
       let deploytype :=
         match deploytype with
         | VStr t =>
             if String.eqb t "website" || String.eqb t "blog" || String.eqb t "svn"
             then t
             else "website"  (* blog or website, nothing in between! *)
         | _ => "website"
         end in
       (* Staging dir *)
       deploydir <- (if truthy profile
                     then py_iadd_str project ("-" ++ py_str repr profile)
                     else ret project) ;;
       (* a list is extended in place: [project] is the same object *)
       let project := match deploydir with VList _ => deploydir | _ => project end in
       (* Or if publishing, use the tlp-server naming format *)
       deploydir <-
         (if publish : bool
          then
            let deploydir := VStr (py_str repr project ++ ".apache.org") in
            (* Hardcoded hostnames (aoo etc): *)
            has_target <- py_in "target" action ;;
            if has_target : bool
            then hostdir <- py_get action "target" VNone ;;
                 ret (if truthy hostdir then hostdir else deploydir)
            else ret deploydir
          else ret deploydir) ;;
       if truthy deploydir && truthy source && negb (String.eqb branch "")
       then
         let root_deployment := deploydir in  (* Logged for purges *)
         extend <-
           (if truthy subdir
            then match subdir with
                 | VStr sd => ret (re_match_class_plus subdir_char sd)
                 | _ => raise TypeError  (* re.match *)
                 end
            else ret false) ;;
         deploydir <-
           (if extend : bool
            then
              syslog LOG_INFO "Extending deployment [%s] dir %s with subdir %s"
                     [AStr deploytype; AVal deploydir; AVal subdir] ;;
              match deploydir, subdir with
              | VStr d, VStr sd => ret (VStr (Path.join d [sd]))
              | _, _ => raise TypeError  (* os.path.join *)
              end
            else ret deploydir) ;;
         let deploydir :=
           if String.eqb deploytype "blog"
           then (* blogs are published under /www/blogs/$project/ *)
             VStr (py_str repr project ++ ".blog")
           else deploydir in
         syslog LOG_INFO "Found deploy [%s] delivery for %s, deploying as %s"
                [AStr deploytype; AVal project; AVal deploydir] ;;
         upsert deploydir
                {| o_source := source; o_branch := branch;
                   o_committer := committer; o_hostname := root_deployment;
                   o_deploytype := deploytype |}
       else ret tt
     else ret tt)
    (fun detail =>
       if is_ValueError detail
       then Some (syslog LOG_WARNING "Bad JSON in payload from %s: %s"
                         [AStr PUBSUB_URL; AExn detail])
       else None).

(** [listen(deployer)] on the messages the stream delivers before it ends *)
Definition listen (payloads : list pyval) : M unit :=
  for_each payloads listen_body ;;
  syslog LOG_WARNING "Disconnected from %s, reconnecting" [AStr PUBSUB_URL].

(** ** Worlds to run the program in *)

(** A process that ends at once with the given status and output and
    leaves the directories as it found them *)
Definition quick (status : Z) (out : string) (d : string -> bool) : process :=
  {| duration := Some 1%Z; returncode := status; output := out;
     dirs_after := d |}.

(** A machine with the given directories, on which a process behaves as
    [exec] says for its command line, and every HTTP request is answered *)
Definition machine (publish : bool) (key : string) (directories : list string)
           (exec : list string -> (string -> bool) -> process) : world :=
  {| dirs := (fun p => existsb (String.eqb p) directories);
     cwd := "/";
     trace := [];
     nspawn := 0;
     os_exec := (fun _ argv _ d => exec argv d);
     nposts := 0;
     http_post := (fun _ _ => Some "ok");
     PUBLISH := publish;
     FASTLY_API_KEY := key;
     svnconfig := [];
     py_repr := (fun _ => "");
     PUBSUB_QUEUE := [] |}.

(** A machine on which every process succeeds without output *)
Definition quiet_world (publish : bool) (key : string) (directories : list string)
  : world :=
  machine publish key directories (fun _ d => quick 0 "" d).

(** A process that has not ended after the given time; it changes nothing *)
Definition slow (seconds : option Z) (d : string -> bool) : process :=
  {| duration := seconds; returncode := 0; output := "";
     dirs_after := d |}.

(** Whether a command line holds the word [word] *)
Definition mentions (argv : list string) (word : string) : bool :=
  existsb (String.eqb word) argv.

(** A machine that holds a checkout of [origin] on [branch] at each of the
    directories: the two commands that read the metadata print them *)
Definition checkout_exec (origin branch : string) (argv : list string)
           (d : string -> bool) : process :=
  if mentions argv "config" then quick 0 (origin ++ String "010" "") d
  else if mentions argv "symbolic-ref" then quick 0 (branch ++ String "010" "") d
  else quick 0 "" d.

(** The same, but a given git subcommand behaves as [p] says *)
Definition faulty_exec (origin branch word : string)
           (p : (string -> bool) -> process) (argv : list string)
           (d : string -> bool) : process :=
  if mentions argv word then p d else checkout_exec origin branch argv d.

(** An entry of the queue for the site [project].apache.org *)
Definition site_opts (project branch : string) : opts :=
  {| o_source := VStr ("https://gitbox.apache.org/repos/asf/" ++ project ++ ".git");
     o_branch := branch;
     o_committer := VStr "root";
     o_hostname := VStr (project ++ ".apache.org");
     o_deploytype := "website" |}.

(** ** Notions the properties are stated with *)

Open Scope list_scope.

(** The candidate [common_parent] tries for one file: its parent directory *)
Definition parent_dir (f : string) : string := (fst (Path.split f) ++ "/")%string.

(** [d] is a prefix of every path of [P] *)
Definition shared (P : list string) (d : string) : bool :=
  forallb (fun fp => Str.startswith fp d) P.

(** One round of the outer loop of [common_parent] *)
Definition cp_step (P : list string) (top f : string) : string :=
  if String.eqb top "/" || negb (Str.startswith f top)
  then if shared P (parent_dir f) then parent_dir f else top
  else top.

Definition is_rmtree (e : event) : bool :=
  match e with Rmtree _ => true | _ => false end.

(** The command lines of the executor *)
Definition clone_argv (path source branch : string) : list string :=
  [GIT_CMD; "clone"; "-b"; branch; "--single-branch"; source; path].
Definition reset_argv (branch : string) : list string :=
  [GIT_CMD; "reset"; "--hard"; ("origin/" ++ branch)%string].
Definition origin_argv : list string :=
  [GIT_CMD; "config"; "--get"; "remote.origin.url"].
Definition head_argv : list string :=
  [GIT_CMD; "symbolic-ref"; "--short"; "HEAD"].

(** A process that is still running when [timeout] seconds have passed *)
Definition timed_out (timeout : Z) (p : process) : bool :=
  match duration p with
  | Some d => negb (d <=? timeout)%Z
  | None => true
  end.



(** The two processes by which [deploy_site] reads, from [w], the origin
    and the branch of the checkout at the absolute [path] *)
Definition origin_process (w : world) (path : string) : process :=
  os_exec w (nspawn w) origin_argv (Path.normpath path) (dirs w).
Definition head_process (w : world) (path : string) : process :=
  os_exec w (S (nspawn w)) head_argv (Path.normpath path)
          (dirs_after (origin_process w path)).

(** The state [deploy_site] is in when it has read the metadata of the
    checkout at [path] *)
Definition after_metadata (w : world) (path : string) : world :=
  set_dirs (dirs_after (head_process w path))
    (set_nspawn (S (S (nspawn w)))
       (set_cwd (Path.normpath path)
          (set_trace
             (trace w ++
              [Syslog LOG_INFO "%s is an existing staging dir, checking it..."
                      [AStr path];
               Chdir path;
               Spawn origin_argv false None;
               Spawn head_argv false None]) w))).

(** What follows when the first of the two commands has failed *)
Definition after_origin (w : world) (path : string) : world :=
  set_dirs (dirs_after (origin_process w path))
    (set_nspawn (S (nspawn w))
       (set_cwd (Path.normpath path)
          (set_trace
             (trace w ++
              [Syslog LOG_INFO "%s is an existing staging dir, checking it..."
                      [AStr path];
               Chdir path;
               Spawn origin_argv false None]) w))).




(** The checkout at [path] records the origin [o] and the branch [b]:
    both commands end with status 0 and print them. *)
Definition on_disk (w : world) (path o b : string) : Prop :=
  let p1 := origin_process w path in
  let p2 := head_process w path in
  duration p1 <> None /\ returncode p1 = 0%Z /\ Utf8.valid (output p1) = true
  /\ Str.strip (output p1) = o
  /\ duration p2 <> None /\ returncode p2 = 0%Z /\ Utf8.valid (output p2) = true
  /\ Str.strip (output p2) = b.


(** Reading the metadata leaves the directories as they are *)
Definition reads_only (w : world) (path : string) : Prop :=
  (forall q, dirs_after (origin_process w path) q = dirs w q)
  /\ (forall q, dirs_after (head_process w path) q = dirs w q).

(** The URLs of the HTTP requests of a trace *)
Fixpoint purge_urls (t : list event) : list string :=
  match t with
  | [] => []
  | HttpPost url _ _ :: r => url :: purge_urls r
  | _ :: r => purge_urls r
  end.

Definition purge_url (svcid hostname : string) : string :=
  ("https://api.fastly.com/service/" ++ svcid ++ "/purge/" ++ hostname)%string.

(** No two entries of a dict have equal keys *)
Fixpoint unique_keys {V} (d : list (pyval * V)) : Prop :=
  match d with
  | [] => True
  | (k, _) :: r => (forall e, In e r -> key_eqb (fst e) k = false) /\ unique_keys r
  end.

(** The entries of a dict under a key *)
Definition entries {V} (d : list (pyval * V)) (key : pyval) : list (pyval * V) :=
  filter (fun e => key_eqb (fst e) key) d.

(** The line feed *)
Definition LF : ascii := "010"%char.


(** Several upserts in a row *)
Definition upserts (l : list (pyval * opts)) (w : world) : world :=
  fold_left (fun w e => snd (upsert (fst e) (snd e) w)) l w.

(** The states the two loops reach, one message or one drain cycle at a
    time, from a state whose queue is empty *)
Inductive reachable : world -> Prop :=
| reach_start w : PUBSUB_QUEUE w = [] -> reachable w
| reach_listen w payload : reachable w -> reachable (snd (listen_body payload w))
| reach_run w : reachable w -> reachable (snd (run_cycle w)).

(** What the validator, the reconciliation engine and the executor leave
    as it was in [w0]: the configuration, the HTTP side, and the purges
    made so far *)
Definition purge_free (w0 w : world) : Prop :=
  PUBLISH w = PUBLISH w0 /\ FASTLY_API_KEY w = FASTLY_API_KEY w0
  /\ http_post w = http_post w0 /\ nposts w = nposts w0
  /\ py_repr w = py_repr w0
  /\ exists evs, trace w = trace w0 ++ evs /\ purge_urls evs = [].

(** An invariant that is about the queue only *)
Definition queue_only (I : world -> Prop) : Prop :=
  forall w w', PUBSUB_QUEUE w' = PUBSUB_QUEUE w -> I w -> I w'.


(** [m] keeps the invariant [I] of the state, however it ends *)
Definition preserves {A} (I : world -> Prop) (m : M A) : Prop :=
  forall w, I w -> I (snd (m w)).

(** Everything the program does but the HTTP requests of the purge *)
Definition vcs_event (e : event) : bool :=
  match e with HttpPost _ _ _ => false | _ => true end.

(** An invariant that the validator, the reconciliation engine and the VCS
    executor cannot break: it does not depend on the directories, on the
    working directory or on the processes launched, and it survives every
    action logged but an HTTP request. *)
Record stable (I : world -> Prop) : Prop := {
  stable_trace : forall w e, vcs_event e = true -> I w -> I (set_trace (trace w ++ [e]) w);
  stable_dirs : forall w d, I w -> I (set_dirs d w);
  stable_cwd : forall w c, I w -> I (set_cwd c w);
  stable_nspawn : forall w n, I w -> I (set_nspawn n w)
}.

(** ** Further notions *)

(** The processes a trace launches, in order *)
Fixpoint spawns (t : list event) : list event :=
  match t with
  | [] => []
  | Spawn argv e timeout :: r => Spawn argv e timeout :: spawns r
  | _ :: r => spawns r
  end.

(** One round of the outer loop of [common_parent] on any values *)
Definition common_parent_round (files : list pyval) (top_directory : string)
           (filename : pyval) : M string :=
  go <- (if String.eqb top_directory "/" then ret true
         else b <- py_startswith filename top_directory ;;
              ret (negb b)) ;;
  if go : bool
  then
    match filename with
    | VStr f =>
        let bits := let (h, t) := Path.split f in [h; t] in
        fold_m (range 0 (length bits - 1))
          (fun top_directory i =>
             let tmp_path :=
               (Path.join (nth 0 bits "") (slice bits 1 i) ++ "/")%string in
             ok <- all_startswith files tmp_path ;;
             ret (if ok : bool then tmp_path else top_directory))
          top_directory
    | _ => raise TypeError
    end
  else ret top_directory.

(** A failure on a value that is not a string *)
Definition type_failure {A} (r : outcome A * world) (w : world) : Prop :=
  r = (Raised TypeError, w) \/ r = (Raised AttributeError, w).

(** Every process the machine launches ends *)
Definition finite (w : world) : Prop :=
  forall n argv c d, duration (os_exec w n argv c d) <> None.

(** [m] returns or raises on a machine whose processes all end, and
    leaves such a machine *)
Definition unblocked {A} (m : M A) : Prop :=
  forall w, finite w -> fst (m w) <> Blocked /\ finite (snd (m w)).

(** The entries of a snapshot run one after the other, each in the state
    the one before has left *)
Definition run_entries (l : list (pyval * opts)) (w : world) : world :=
  fold_left (fun w e => snd (run_entry e w)) l w.

(** The key [listen] looks for in a message *)
Definition expected_action (w : world) : string :=
  if PUBLISH w then "publish" else "staging".

(** A message that is neither a native event for this host nor a commit *)
Definition foreign (w : world) (payload : pyval) : Prop :=
  exists items,
    payload = VDict items
    /\ dict_has items "commit" = false
    /\ dict_has items (expected_action w) = false.

(** A commit message that the svnpubsub conversion leaves alone: the
    commit is not an object, or not of type svn, or from a repository that
    is not listed in [SVN_UUIDS] *)
Definition unknown_commit (payload : pyval) : Prop :=
  exists items,
    payload = VDict items
    /\ dict_has items "commit" = true
    /\ match dict_get items "commit" VNone with
       | VDict citems =>
           eq_str (dict_get citems "type" (VStr "")) "svn" = false
           \/ (hashable (dict_get citems "repository" (VStr "")) = true
               /\ forall u, dict_get citems "repository" (VStr "") = VStr u ->
                            assoc SVN_UUIDS u = None)
       | _ => True
       end.

(** A queue entry as [listen] makes them: a key that can be one, a branch,
    a source and a purge hostname that are not empty, and one of the three
    deploy types *)
Definition well_formed (e : pyval * opts) : Prop :=
  hashable (fst e) = true
  /\ o_branch (snd e) <> ""%string
  /\ truthy (o_source (snd e)) = true
  /\ truthy (o_hostname (snd e)) = true
  /\ In (o_deploytype (snd e)) ["website"; "blog"; "svn"]%string.

(** The entries of the [track] section that a commit under [svn_url]
    matches *)
Definition svn_tracked (svn_url : string) (entry : string * string) : bool :=
  Str.startswith svn_url (snd entry) && Str.startswith (fst entry) "/".

Definition svn_matches (svn_url : string) (track : list (string * string))
  : list (string * string) :=
  filter (svn_tracked svn_url) track.

(** The payload the conversion makes up for a commit under [svn_url] that
    matches the tracked directory [target] *)
Definition fake_publish (citems : list (string * pyval)) (svn_url target : string)
  : pyval :=
  let project :=
    if Str.contains target "/www/"
    then Str.replace (snd (Path.split target)) ".apache.org" ""
    else "infra" in
  VDict [("publish",
          VDict [("project", VStr project);
                 ("source", VStr svn_url);
                 ("pusher", dict_get citems "committer" (VStr "root"));
                 ("deploytype", VStr "svn");
                 ("target", VStr target)])].

(** A commit message of type svn, from a repository listed in [SVN_UUIDS]
    under [svn_root], that changes [files] *)
Definition svn_commit (payload : pyval) (citems : list (string * pyval))
           (svn_root : string) (files : list string) : Prop :=
  exists items uuid,
    payload = VDict items
    /\ dict_has items "commit" = true
    /\ dict_get items "commit" VNone = VDict citems
    /\ eq_str (dict_get citems "type" (VStr "")) "svn" = true
    /\ dict_get citems "repository" (VStr "") = VStr uuid
    /\ assoc SVN_UUIDS uuid = Some svn_root
    /\ py_iter (dict_get citems "changed" (VList [])) = ret (map VStr files).

(** [m] raises no exception outside [S] *)
Definition raises_only {A} (S : exn -> Prop) (m : M A) : Prop :=
  forall w e, fst (m w) = Raised e -> S e.




(** The exceptions of an operation on a value of the wrong type *)
Definition dynamic_failure (e : exn) : Prop := e = TypeError \/ e = AttributeError.

(** A machine with the given directories on which every process succeeds
    without output, and whose configuration tracks the subversion
    directories [track] *)
Definition tracking_host (publish : bool) (directories : list string)
           (track : list (string * string)) : world :=
  {| dirs := (fun p => existsb (String.eqb p) directories);
     cwd := "/";
     trace := [];
     nspawn := 0;
     os_exec := (fun _ _ _ d => quick 0 "" d);
     nposts := 0;
     http_post := (fun _ _ => Some "ok");
     PUBLISH := publish;
     FASTLY_API_KEY := "key";
     svnconfig := [("track", track)];
     py_repr := (fun _ => "");
     PUBSUB_QUEUE := [] |}.

(** A request for the site [project] from its repository on gitbox *)
Definition site_request (action project branch : string) : pyval :=
  VDict [(action,
          VDict [("project", VStr project);
                 ("source", VStr ("https://gitbox.apache.org/repos/asf/"
                                  ++ project ++ ".git"));
                 ("branch", VStr branch)])].

(** A publishing host whose purge requests are not answered *)
Definition offline_host (directories : list string) : world :=
  {| dirs := (fun p => existsb (String.eqb p) directories);
     cwd := "/";
     trace := [];
     nspawn := 0;
     os_exec := (fun _ _ _ d => quick 0 "" d);
     nposts := 0;
     http_post := (fun _ _ => None);
     PUBLISH := true;
     FASTLY_API_KEY := "key";
     svnconfig := [];
     py_repr := (fun _ => "");
     PUBSUB_QUEUE := [] |}.

Unset Implicit Arguments.

(** * Properties *)

(** ** Text *)

Lemma startswith_app p t : Str.startswith (p ++ t) p = true.
Proof.
  induction p as [|c p IH]; simpl; [reflexivity|].
  rewrite Ascii.eqb_refl. exact IH.
Qed.

Lemma startswith_inv s p : Str.startswith s p = true -> exists t, s = (p ++ t)%string.
Proof.
  revert s; induction p as [|c p IH]; intros s H; simpl in *.
  - exists s; reflexivity.
  - destruct s as [|a s]; [discriminate H|].
    apply andb_prop in H as [E H]. apply Ascii.eqb_eq in E as ->.
    destruct (IH _ H) as [t ->]. exists t; reflexivity.
Qed.

(** ** C2: the common-ancestor resolver *)

Lemma common_parent_unfold P :
  common_parent P =
  let top := fold_left (cp_step P) P "/" in
  if String.eqb top "" then "/" else top.
Proof.
  unfold common_parent.
  assert (E : forall l top,
    fold_left
      (fun top_directory filename =>
         if String.eqb top_directory "/"
            || negb (Str.startswith filename top_directory)
         then
           let bits := let (h, t) := Path.split filename in [h; t] in
           fold_left
             (fun top_directory i =>
                let tmp_path :=
                  (Path.join (nth 0 bits "") (slice bits 1 i) ++ "/")%string in
                if forallb (fun fp => Str.startswith fp tmp_path) P
                then tmp_path else top_directory)
             (range 0 (length bits - 1)) top_directory
         else top_directory) l top = fold_left (cp_step P) l top).
  { induction l as [|f l IH]; intro top; simpl.
    - reflexivity.
    - rewrite <- IH. f_equal. }
  rewrite E. reflexivity.
Qed.

Lemma endswith_app_slash h : Str.endswith (h ++ "/") "/" = true.
Proof.
  unfold Str.endswith.
  assert (L : String.length (h ++ "/") = S (String.length h)).
  { induction h; simpl; auto. }
  rewrite L. simpl. replace (String.length h - 0) with (String.length h) by lia.
  induction h; simpl; auto.
Qed.

Lemma rfind_lower s c : (-1 <= Str.rfind s c)%Z.
Proof.
  induction s as [|a r IH]; simpl; [lia|].
  destruct (0 <=? Str.rfind r c)%Z eqn:E; [lia|].
  destruct (Ascii.eqb a c); lia.
Qed.

Lemma rfind_absent a r c : Str.rfind (String a r) c = (-1)%Z -> a <> c.
Proof.
  simpl. pose proof (rfind_lower r c).
  destruct (0 <=? Str.rfind r c)%Z eqn:E; [lia|].
  destruct (Ascii.eqb_spec a c); [discriminate | auto].
Qed.

Lemma rstrip_empty s c : Str.rstrip s c = "" -> s = Str.repeat c (String.length s).
Proof.
  induction s as [|a r IH]; simpl; [reflexivity|].
  destruct (Str.rstrip r c) eqn:E; [|discriminate].
  destruct (Ascii.eqb_spec a c) as [->|]; [|discriminate].
  intros _. f_equal. apply IH. reflexivity.
Qed.

Lemma take_empty n s : Str.take n s = "" -> n = 0%nat \/ s = "".
Proof. destruct n, s; simpl; auto; discriminate. Qed.

(** A path whose [os.path.split] head is empty does not start with a slash *)
Lemma split_head_empty f :
  fst (Path.split f) = "" -> Str.startswith f "/" = false.
Proof.
  unfold Path.split. simpl fst.
  set (i := Z.to_nat (Str.rfind f Path.sep + 1)).
  destruct (negb (Str.take i f =? "") &&
            negb (Str.take i f =? Str.repeat Path.sep (String.length (Str.take i f)))) eqn:C.
  - intro H. apply rstrip_empty in H.
    apply andb_prop in C as [_ C]. rewrite <- H in C.
    rewrite String.eqb_refl in C. discriminate.
  - intro H. apply take_empty in H as [H | ->]; [|reflexivity].
    destruct f as [|a r]; [reflexivity|].
    assert (R : Str.rfind (String a r) Path.sep = (-1)%Z).
    { pose proof (rfind_lower (String a r) Path.sep). subst i. lia. }
    apply rfind_absent in R. simpl.
    destruct (Ascii.eqb_spec a "/") as [->|]; [|reflexivity].
    exfalso; apply R; reflexivity.
Qed.

Lemma shared_spec P d :
  shared P d = true <-> Forall (fun f => Str.startswith f d = true) P.
Proof.
  unfold shared. rewrite forallb_forall, Forall_forall. reflexivity.
Qed.

Lemma parent_dir_not_root P f :
  In f P -> shared P (parent_dir f) = true -> parent_dir f <> "/".
Proof.
  intros I S E. rewrite E in S.
  rewrite shared_spec, Forall_forall in S. specialize (S _ I).
  assert (H : fst (Path.split f) = "").
  { unfold parent_dir in E. destruct (fst (Path.split f)) as [|c h]; [reflexivity|].
    simpl in E. injection E as _ E. destruct h; discriminate E. }
  apply split_head_empty in H. congruence.
Qed.

(** Once a shared directory is found no later file changes it *)
Lemma fold_cp_step_stable P l top :
  incl l P -> top <> "/" -> shared P top = true ->
  fold_left (cp_step P) l top = top.
Proof.
  induction l as [|f l IH]; intros I N S; simpl; [reflexivity|].
  assert (E : cp_step P top f = top).
  { unfold cp_step. destruct (String.eqb_spec top "/") as [|_]; [contradiction|].
    rewrite shared_spec, Forall_forall in S.
    rewrite (S f) by (apply I; left; reflexivity). reflexivity. }
  rewrite E. apply IH; auto. intros x Hx; apply I; right; exact Hx.
Qed.

Lemma fold_cp_step_find P l :
  incl l P ->
  fold_left (cp_step P) l "/" =
  match find (fun f => shared P (parent_dir f)) l with
  | Some f => parent_dir f
  | None => "/"
  end.
Proof.
  induction l as [|f l IH]; intro I; simpl; [reflexivity|].
  assert (Il : incl l P) by (intros x Hx; apply I; right; exact Hx).
  unfold cp_step at 2. simpl.
  destruct (shared P (parent_dir f)) eqn:S.
  - apply fold_cp_step_stable; auto.
    apply parent_dir_not_root with (P := P); auto. apply I; left; reflexivity.
  - apply IH; exact Il.
Qed.

(** What [common_parent] computes: the parent directory of the first file
    whose parent directory is shared by all the files *)
Lemma common_parent_first_shared P :
  common_parent P =
  match find (fun f => shared P (parent_dir f)) P with
  | Some f => parent_dir f
  | None => "/"
  end.
Proof.
  rewrite common_parent_unfold. cbv zeta.
  rewrite fold_cp_step_find by apply incl_refl.
  destruct (find _ P) as [f|]; [|reflexivity].
  unfold parent_dir. destruct (fst (Path.split f)); reflexivity.
Qed.

(** C2, as amended: [common_parent] returns the root or a directory path,
    ending in a slash, that is a prefix of every path of the list; for the
    empty list and for ["/a"] it returns the root. *)
Theorem common_parent_shared_or_root (P : list string) :
  (common_parent P = "/"
   \/ (Str.endswith (common_parent P) "/" = true
       /\ Forall (fun f => Str.startswith f (common_parent P) = true) P))
  /\ common_parent [] = "/"
  /\ common_parent ["/a"] = "/".
Proof.
  split; [|split; reflexivity].
  rewrite common_parent_first_shared.
  destruct (find _ P) as [f|] eqn:F; [right | left; reflexivity].
  apply find_some in F as [_ S]. split.
  - apply endswith_app_slash.
  - apply shared_spec; exact S.
Qed.

(** C2 fails as stated: the result need not be the deepest directory all
    the paths share, and need not be a prefix of the paths. *)
Lemma common_parent_not_deepest :
  (let P := ["/a/b/c/d.txt"; "/a/b/e/f.txt"] in
   common_parent P = "/"
   /\ Str.endswith "/a/b/" "/" = true
   /\ forallb (fun f => Str.startswith f "/a/b/") P = true
   /\ (String.length (common_parent P) < String.length "/a/b/")%nat)
  /\ (let P := ["a/x"; "b/y"] in
      existsb (fun f => negb (Str.startswith f (common_parent P))) P = true).
Proof. vm_compute. repeat split; lia. Qed.

(** ** Invariants of the state *)

Create HintDb preserve.

Section Preservation.

Variable I : world -> Prop.

Lemma preserves_ret {A} (a : A) : preserves I (ret a).
Proof. intros w H; exact H. Qed.

Lemma preserves_raise {A} (e : exn) : preserves I (@raise A e).
Proof. intros w H; exact H. Qed.

Lemma preserves_read {A} (f : world -> A) :
  preserves I (fun w => (Normal (f w), w)).
Proof. intros w H; exact H. Qed.

Lemma preserves_bind {A B} (m : M A) (k : A -> M B) :
  preserves I m -> (forall a, preserves I (k a)) -> preserves I (bind m k).
Proof.
  intros Hm Hk w H. unfold bind. specialize (Hm w H).
  destruct (m w) as [[a| e |] w']; simpl in *; auto. apply Hk; exact Hm.
Qed.

Lemma preserves_try {A} (m : M A) (h : exn -> option (M A)) :
  preserves I m -> (forall e k, h e = Some k -> preserves I k) ->
  preserves I (try_except m h).
Proof.
  intros Hm Hh w H. unfold try_except. specialize (Hm w H).
  destruct (m w) as [[a| e |] w']; simpl in *; auto.
  destruct (h e) as [k|] eqn:E; simpl; auto. apply (Hh e k E); exact Hm.
Qed.

Lemma preserves_for_each {A} (l : list A) (body : A -> M unit) :
  (forall x, preserves I (body x)) -> preserves I (for_each l body).
Proof.
  intro Hb. induction l as [|x l IH]; simpl.
  - apply preserves_ret.
  - apply preserves_bind; auto.
Qed.

Lemma preserves_fold_m {A S} (l : list A) (body : S -> A -> M S) (s : S) :
  (forall s x, preserves I (body s x)) -> preserves I (fold_m l body s).
Proof.
  intro Hb. revert s. induction l as [|x l IH]; intro s; simpl.
  - apply preserves_ret.
  - apply preserves_bind; auto.
Qed.

Hypothesis HI : stable I.

Lemma preserves_emit e : vcs_event e = true -> preserves I (emit e).
Proof. intros He w H. apply (stable_trace HI); assumption. Qed.

Lemma preserves_syslog p fmt args : preserves I (syslog p fmt args).
Proof. apply preserves_emit; reflexivity. Qed.

Lemma preserves_isdir path : preserves I (isdir path).
Proof. intros w H; exact H. Qed.

Lemma preserves_chdir path : preserves I (chdir path).
Proof.
  intros w H. unfold chdir. destruct (dirs w _); simpl; [|exact H].
  apply (stable_cwd HI). apply (stable_trace HI); [reflexivity | exact H].
Qed.

Lemma preserves_rmtree path : preserves I (rmtree path).
Proof.
  intros w H. unfold rmtree; simpl.
  apply (stable_dirs HI). apply (stable_trace HI); [reflexivity | exact H].
Qed.

Lemma preserves_check_output args e t : preserves I (check_output args e t).
Proof.
  intros w H. unfold check_output.
  destruct (argv_strings args) as [argv|]; [|exact H].
  assert (H' : I (set_dirs (dirs_after (os_exec w (nspawn w) argv (cwd w) (dirs w)))
                    (set_nspawn (S (nspawn w))
                       (set_trace (trace w ++ [Spawn argv e t]) w)))).
  { apply (stable_dirs HI), (stable_nspawn HI), (stable_trace HI);
      [reflexivity | exact H]. }
  destruct (duration _) as [d|], t as [t|]; try destruct (d <=? t)%Z; exact H'.
Qed.

Lemma preserves_decode_utf8 b : preserves I (decode_utf8 b).
Proof. intros w H. unfold decode_utf8. destruct (Utf8.valid b); exact H. Qed.

End Preservation.

#[export] Hint Resolve preserves_ret preserves_raise preserves_read
  preserves_syslog preserves_isdir preserves_chdir preserves_rmtree
  preserves_check_output preserves_decode_utf8 : preserve.

(** One step of a proof that a computation keeps an invariant, along the
    structure of the computation *)
Ltac preserves_step :=
  match goal with
  | |- preserves _ (bind _ _) => apply preserves_bind; [|intro]
  | |- preserves _ (try_except _ _) => apply preserves_try; [|intros ? ? ?]
  | |- preserves _ (for_each _ _) => apply preserves_for_each; intro
  | |- preserves _ (fold_m _ _ _) => apply preserves_fold_m; intros ? ?
  | |- preserves _ (emit _) => apply preserves_emit; [assumption | reflexivity]
  | |- preserves _ (if ?b then _ else _) => destruct b
  | |- preserves _ (match ?x with _ => _ end) => destruct x
  | H : match ?e with _ => _ end = Some _ |- _ =>
      destruct e; try discriminate H; injection H as <-
  | H : Some _ = Some _ |- _ => injection H as <-
  | H : None = Some _ |- _ => discriminate H
  | |- preserves _ _ => solve [eauto with preserve]
  end.

Ltac preserves_auto := repeat preserves_step.

Section Engine.

Variable I : world -> Prop.
Hypothesis HI : stable I.

Lemma preserves_checkout_git_repo path source branch :
  preserves I (checkout_git_repo path source branch).
Proof. unfold checkout_git_repo. preserves_auto. Qed.

Lemma preserves_do_git_pull path branch : preserves I (do_git_pull path branch).
Proof. unfold do_git_pull. preserves_auto. Qed.

Lemma preserves_do_svn_up path : preserves I (do_svn_up path).
Proof. unfold do_svn_up. preserves_auto. Qed.

Hint Resolve preserves_checkout_git_repo preserves_do_git_pull
  preserves_do_svn_up : preserve.

Lemma preserves_reconcile path source branch deploytype :
  preserves I (reconcile path source branch deploytype).
Proof. unfold reconcile. preserves_auto. Qed.

Hint Resolve preserves_reconcile : preserve.

Lemma preserves_deploy_site deploydir source branch committer deploytype :
  preserves I (deploy_site deploydir source branch committer deploytype).
Proof. unfold deploy_site. preserves_auto. Qed.

End Engine.

(** ** Running the program step by step *)

(** The fields of a state that has been updated *)
Ltac norm_world :=
  cbn beta iota zeta delta
    [set_trace set_dirs set_cwd set_nspawn set_nposts set_queue
     dirs cwd trace nspawn os_exec nposts http_post PUBLISH FASTLY_API_KEY
     svnconfig py_repr PUBSUB_QUEUE];
  rewrite <- ?app_assoc; cbn [app].

(** The call of [f] on the left is the one on the right *)
Ltac same_call f :=
  match goal with
  | |- ?L = _ =>
      match L with
      | context [f ?a ?b ?c ?wl] =>
          let E := fresh "E" in
          destruct (f a b c wl) as [[[]| ? |] ?] eqn:E; symmetry; exact E
      end
  end.

Lemma abspath_ROOT_DIR c : Path.abspath c ROOT_DIR = ROOT_DIR.
Proof. reflexivity. Qed.

Ltac run_step :=
  cbv beta iota zeta delta
    [bind ret raise try_except syslog emit isdir chdir rmtree check_output
     decode_utf8 argv_strings option_map fst snd];
  cbn beta iota zeta delta
    [set_trace set_dirs set_cwd set_nspawn set_nposts set_queue is_dir
     dirs cwd trace nspawn os_exec nposts http_post PUBLISH FASTLY_API_KEY
     svnconfig py_repr PUBSUB_QUEUE].

(** ** The VCS executor *)

Ltac norm_trace := rewrite <- ?app_assoc; cbn [app].




(** [do_svn_up] in a directory that exists *)
Lemma do_svn_up_run w path :
  let sp := os_exec w (nspawn w) [SVN_CMD; "up"] (Path.abspath (cwd w) path) (dirs w) in
  is_dir w path = true ->
  do_svn_up path w =
  let w1 :=
    set_dirs (dirs_after sp)
      (set_nspawn (S (nspawn w))
         (set_cwd (Path.abspath (cwd w) path)
            (set_trace
               (trace w ++
                [Chdir path; Spawn [SVN_CMD; "up"] true (Some CHECKOUT_TIMEOUT)]) w))) in
  if timed_out CHECKOUT_TIMEOUT sp
  then syslog LOG_WARNING "Could not run svn up: operation timed out" [] w1
  else if (returncode sp =? 0)%Z
       then syslog LOG_INFO "Successfully completed `svn up` into %s" [AStr path] w1
       else syslog LOG_WARNING "Command `svn up` failed in %s: %s"
                   [AStr path; ABytes (output sp)] w1.
Proof.
  intros sp HP. unfold do_svn_up. unfold is_dir in HP.
  run_step. rewrite HP. run_step. fold sp. unfold timed_out.
  destruct (duration sp) as [d|]; cbn [negb].
  - destruct (d <=? CHECKOUT_TIMEOUT)%Z; cbn [negb].
    + destruct (returncode sp =? 0)%Z; run_step; norm_trace; reflexivity.
    + run_step; norm_trace; reflexivity.
  - run_step; norm_trace; reflexivity.
Qed.

(** ** Reconciliation *)

Lemma abspath_isabs c p : Path.isabs p = true -> Path.abspath c p = Path.normpath p.
Proof. intro H. unfold Path.abspath. rewrite H. reflexivity. Qed.

Lemma join2_isabs a b : Path.isabs a = true -> Path.isabs (Path.join2 a b) = true.
Proof.
  intro H. unfold Path.join2, Path.isabs in *.
  destruct (Str.startswith b "/") eqn:B; [exact B|].
  destruct a as [|c a]; [discriminate H|].
  simpl in H. apply andb_prop in H as [E _]. apply Ascii.eqb_eq in E as ->.
  destruct (_ || _); reflexivity.
Qed.

Lemma target_path_isabs deploydir deploytype :
  Path.isabs (target_path deploydir deploytype) = true.
Proof.
  unfold target_path. destruct (String.eqb deploytype "blog");
    apply join2_isabs; reflexivity.
Qed.

(** A handler that has clobbered the checkout ends the function *)
Lemma bind_ret_None {T} (m : M unit) (k : T -> M unit) w :
  bind (bind m (fun _ => ret (@None T)))
       (fun o => match o with None => ret tt | Some p => k p end) w = m w.
Proof.
  unfold bind, ret. destruct (m w) as [[[]| e |] w']; reflexivity.
Qed.

(** [reconcile] on a directory that is not a subversion working copy: what
    it does, by the behaviour of the two commands that read the origin and
    the branch. *)
Lemma reconcile_checkout w path source branch deploytype :
  let p1 := origin_process w path in
  let p2 := head_process w path in
  Path.isabs path = true ->
  is_dir w path = true ->
  is_dir w (Path.join path [".svn"]) = false ->
  reconcile path source branch deploytype w =
  match duration p1 with
  | None => (Blocked, after_origin w path)
  | Some _ =>
      if negb (returncode p1 =? 0)%Z
      then (syslog LOG_WARNING
              "Could not determine original source of %s, clobbering: %s"
              [AStr path; ABytes (output p1)] ;;
            checkout_git_repo path source branch) (after_origin w path)
      else if negb (Utf8.valid (output p1))
      then (Raised UnicodeDecodeError, after_origin w path)
      else
        match duration p2 with
        | None => (Blocked, after_metadata w path)
        | Some _ =>
            if negb (returncode p2 =? 0)%Z
            then (syslog LOG_WARNING
                    "Could not determine original source of %s, clobbering: %s"
                    [AStr path; ABytes (output p2)] ;;
                  checkout_git_repo path source branch) (after_metadata w path)
            else if negb (Utf8.valid (output p2))
            then (Raised UnicodeDecodeError, after_metadata w path)
            else if negb (eq_str source (Str.strip (output p1)))
            then (syslog LOG_INFO
                    "Source repo for %s is not %s (%s), clobbering repo."
                    [AStr path; AVal source; AStr (Str.strip (output p1))] ;;
                  checkout_git_repo path source branch) (after_metadata w path)
            else if negb (String.eqb (Str.strip (output p2)) branch)
            then (syslog LOG_INFO
                    "Source branch for %s is not %s (%s), clobbering repo."
                    [AStr path; AStr branch; AStr (Str.strip (output p2))] ;;
                  checkout_git_repo path source branch) (after_metadata w path)
            else (syslog LOG_INFO
                    "Source and branch match on-disk, doing git pull" [] ;;
                  do_git_pull path branch) (after_metadata w path)
        end
  end.
Proof.
  intros p1 p2 HA HP HS. unfold reconcile.
  unfold is_dir in HP, HS. rewrite (abspath_isabs _ _ HA) in HP.
  run_step. unfold is_dir. rewrite (abspath_isabs _ _ HA), HP. run_step.
  rewrite HS. run_step. rewrite (abspath_isabs _ _ HA), HP. run_step.
  change (os_exec w (nspawn w) [GIT_CMD; "config"; "--get"; "remote.origin.url"]
            (Path.normpath path) (dirs w)) with p1.
  unfold after_origin, after_metadata.
  change (origin_process w path) with p1. change (head_process w path) with p2.
  destruct (duration p1) as [d1|]; [|norm_trace; reflexivity].
  destruct (returncode p1 =? 0)%Z; cbn [negb];
    [|run_step; norm_trace; same_call checkout_git_repo].
  destruct (Utf8.valid (output p1)); cbn [negb]; run_step;
    [|norm_trace; reflexivity].
  change (os_exec w (S (nspawn w)) [GIT_CMD; "symbolic-ref"; "--short"; "HEAD"]
            (Path.normpath path) (dirs_after p1)) with p2.
  destruct (duration p2) as [d2|]; [|norm_trace; reflexivity].
  destruct (returncode p2 =? 0)%Z; cbn [negb];
    [|run_step; norm_trace; same_call checkout_git_repo].
  destruct (Utf8.valid (output p2)); cbn [negb]; run_step;
    [|norm_trace; reflexivity].
  destruct (eq_str source (Str.strip (output p1))); cbn [negb];
    [|run_step; norm_trace; reflexivity].
  destruct (String.eqb (Str.strip (output p2)) branch); cbn [negb];
    run_step; norm_trace; reflexivity.
Qed.

Lemma deploy_site_accepted w deploydir source branch committer deploytype :
  prevalidation (cwd w) deploydir source branch deploytype = Accepted ->
  deploy_site (VStr deploydir) source branch committer deploytype w =
  reconcile (target_path deploydir deploytype) source branch deploytype w.
Proof.
  intro H. unfold deploy_site. unfold bind at 1. rewrite H. reflexivity.
Qed.




(** ** C3: validation *)

Lemma at_dollar_app pre c post :
  at_dollar (pre ++ String c post)%string = true ->
  pre = ""%string /\ c = LF /\ post = ""%string.
Proof.
  unfold at_dollar. destruct pre as [|a pre]; simpl.
  - destruct (Ascii.eqb_spec c LF) as [->|N]; unfold LF in *.
    + destruct post; [auto | discriminate].
    + intro H. exfalso. apply N.
      destruct (Ascii.eqb_spec c "010"); [assumption | discriminate H].
  - destruct (Ascii.eqb a "010"); [|discriminate].
    destruct pre; discriminate.
Qed.

(** A character outside the class, other than a final line feed, makes the
    match fail *)
Lemma re_match_class_plus_rejects cls pre c post :
  cls c = false -> ~ (c = LF /\ post = ""%string) ->
  re_match_class_plus cls (pre ++ String c post)%string = false.
Proof.
  intros Hc Hn. induction pre as [|a pre IH]; simpl.
  - rewrite Hc. reflexivity.
  - rewrite IH, orb_false_r.
    destruct (at_dollar (pre ++ String c post)%string) eqn:E.
    + apply at_dollar_app in E as (_ & -> & ->). exfalso; apply Hn; auto.
    + apply andb_false_r.
Qed.

Lemma join_ROOT_isabs deploydir : Path.isabs (Path.join ROOT_DIR [deploydir]) = true.
Proof. apply join2_isabs. reflexivity. Qed.

Lemma join_ROOT_relative deploydir :
  Path.isabs deploydir = false ->
  Path.join ROOT_DIR [deploydir] = (ROOT_DIR ++ "/" ++ deploydir)%string.
Proof.
  intro H. unfold Path.join. cbn [fold_left]. unfold Path.join2.
  unfold Path.isabs in H. rewrite H. reflexivity.
Qed.

Lemma prevalidation_accepted_normal here deploydir source branch deploytype :
  prevalidation here deploydir source branch deploytype = Accepted ->
  Path.abspath here (Path.join ROOT_DIR [deploydir]) = Path.join ROOT_DIR [deploydir].
Proof.
  unfold prevalidation.
  destruct (_ || _); [discriminate|].
  destruct (String.eqb_spec (Path.abspath here (Path.join ROOT_DIR [deploydir]))
                            (Path.join ROOT_DIR [deploydir])) as [E|]; cbn [negb];
    [intros _; exact E | discriminate].
Qed.

(** C3, as amended: a target directory that contains [..], or that holds
    (once [.apache.org] is taken out) a character outside the class other
    than a final line feed, or whose join with the root is not in normal
    form, is rejected with one log line and nothing else, whatever the
    source and the branch; a relative target directory of a request of
    another type than blog that passes validation resolves to the
    normalized path [ROOT_DIR/target], which lies below the root. *)
Theorem unsafe_deploydir_rejected w deploydir source branch committer deploytype :
  let path := Path.join ROOT_DIR [deploydir] in
  (Str.contains deploydir ".." = true
   \/ (exists pre c post,
          Str.replace deploydir ".apache.org" "" = (pre ++ String c post)%string
          /\ deploydir_char c = false /\ ~ (c = LF /\ post = ""%string))
   \/ Path.normpath path <> path ->
   exists fmt,
     deploy_site (VStr deploydir) source branch committer deploytype w
     = syslog LOG_WARNING fmt [AStr deploydir] w)
  /\ (prevalidation (cwd w) deploydir source branch deploytype = Accepted ->
      Path.isabs deploydir = false ->
      deploytype <> "blog"%string ->
      target_path deploydir deploytype = (ROOT_DIR ++ "/" ++ deploydir)%string
      /\ Path.abspath (cwd w) (target_path deploydir deploytype)
         = target_path deploydir deploytype
      /\ within ROOT_DIR (target_path deploydir deploytype) = true).
Proof.
  intro path. split.
  - intro H. unfold deploy_site. unfold bind at 1. unfold prevalidation. fold path.
    destruct (negb (re_match_class_plus deploydir_char
                      (Str.replace deploydir ".apache.org" ""))
              || Str.contains deploydir "..") eqn:C1.
    + eexists; reflexivity.
    + apply orb_false_elim in C1 as [C1 C1'].
      destruct H as [H | [(pre & c & post & E & Hc & Hn) | H]].
      * congruence.
      * rewrite E, (re_match_class_plus_rejects _ pre c post Hc Hn) in C1.
        discriminate C1.
      * rewrite (abspath_isabs _ _ (join_ROOT_isabs deploydir)). fold path.
        destruct (String.eqb_spec (Path.normpath path) path); [contradiction|].
        cbn [negb]. eexists; reflexivity.
  - intros HV HA HB.
    assert (T : target_path deploydir deploytype = path).
    { unfold target_path. destruct (String.eqb_spec deploytype "blog");
        [contradiction | reflexivity]. }
    rewrite T. unfold path. split; [|split].
    + apply join_ROOT_relative; exact HA.
    + eapply prevalidation_accepted_normal; exact HV.
    + rewrite (join_ROOT_relative _ HA). unfold within.
      replace (ROOT_DIR ++ "/" ++ deploydir)%string
        with (("/www/" ++ deploydir)%string) by reflexivity.
      replace (if Str.endswith ROOT_DIR "/" then ROOT_DIR else (ROOT_DIR ++ "/")%string)
        with "/www/"%string by reflexivity.
      rewrite startswith_app. apply orb_true_r.
Qed.

(** C3 fails as stated: an absolute target directory passes validation and
    is cloned into although it lies outside the deployment root, a
    blog-type target can resolve outside both roots, and a target that ends
    with a line feed is accepted. *)
Lemma validation_lets_paths_escape :
  let source := VStr "https://github.com/apache/foo.git" in
  let w := quiet_world false "" ["/www"] in
  prevalidation "/" "/etc/cron.d" source "main" "website" = Accepted
  /\ within ROOT_DIR (Path.abspath "/" (target_path "/etc/cron.d" "website")) = false
  /\ In (Spawn (clone_argv "/etc/cron.d" "https://github.com/apache/foo.git" "main")
               false (Some CHECKOUT_TIMEOUT))
        (trace (snd (deploy_site (VStr "/etc/cron.d") source "main" VNone "website" w)))
  /\ prevalidation "/" ".blog/etc" source "main" "blog" = Accepted
  /\ target_path ".blog/etc" "blog" = "/etc"%string
  /\ prevalidation "/" (String "f" (String LF "")) source "main" "website" = Accepted.
Proof. vm_compute. intuition. Qed.

(** ** C6, C7: failures of the executor *)

Lemma checkout_exec_reads_only origin branch w path :
  os_exec w = (fun _ argv _ d => checkout_exec origin branch argv d) ->
  reads_only w path.
Proof.
  intro E. unfold reads_only, head_process, origin_process. rewrite E.
  split; intro q; reflexivity.
Qed.

(** C6 at the failing input: a fetch that outlives its timeout makes
    [do_git_pull] raise [NameError] past itself; the drain loop catches it,
    logs it and goes on. *)
Theorem do_git_pull_timeout_raises_NameError :
  let origin := "https://gitbox.apache.org/repos/asf/foo.git" in
  let w := machine false "" ["/www"; "/www/foo"]
                   (faulty_exec origin "asf-site" "fetch" (slow (Some 181%Z))) in
  fst (do_git_pull "/www/foo" "asf-site" w) = Raised (NameError "source")
  /\ fst (deploy_site (VStr "foo") (VStr origin) "asf-site" (VStr "root") "website" w)
     = Raised (NameError "source")
  /\ (let r := run_entry (VStr "foo", site_opts "foo" "asf-site") w in
      fst r = Normal tt
      /\ last (trace (snd r)) (Sleep 0)
         = Syslog LOG_WARNING "BORK: Could not deploy to %s: %s"
                  [AVal (VStr "foo"); AExn (NameError "source")]).
Proof. vm_compute. auto. Qed.

(** C7 at the failing input: [git reset --hard] is launched without a
    timeout, and when it never ends neither [do_git_pull] nor the drain
    cycle returns. *)
Theorem git_reset_has_no_timeout :
  let origin := "https://gitbox.apache.org/repos/asf/foo.git" in
  let w := machine false "" ["/www"; "/www/foo"] (checkout_exec origin "asf-site") in
  let stuck := machine false "" ["/www"; "/www/foo"]
                       (faulty_exec origin "asf-site" "reset" (slow None)) in
  In (Spawn (reset_argv "asf-site") true None)
     (trace (snd (do_git_pull "/www/foo" "asf-site" w)))
  /\ fst (do_git_pull "/www/foo" "asf-site" stuck) = Blocked
  /\ fst (run_cycle (snd (upsert (VStr "foo") (site_opts "foo" "asf-site") stuck)))
     = Blocked.
Proof. vm_compute. intuition. Qed.

(** ** C8: the purge notifier *)

Lemma purge_urls_app t1 t2 : purge_urls (t1 ++ t2) = purge_urls t1 ++ purge_urls t2.
Proof.
  induction t1 as [|e t1 IH]; [reflexivity|].
  destruct e; cbn [purge_urls app]; rewrite ?IH; reflexivity.
Qed.

Lemma purge_free_refl w : purge_free w w.
Proof.
  repeat split. exists []. rewrite app_nil_r. split; reflexivity.
Qed.

Lemma purge_free_stable w0 : stable (purge_free w0).
Proof.
  split.
  - intros w e He (P & K & H & N & R & evs & T & U). repeat split; try assumption.
    exists (evs ++ [e]). cbn. rewrite T, app_assoc, purge_urls_app, U.
    split; [reflexivity|]. destruct e; try reflexivity. discriminate He.
  - intros w d H; exact H.
  - intros w c H; exact H.
  - intros w n H; exact H.
Qed.

Lemma deploy_site_purge_free w deploydir source branch committer deploytype :
  purge_free w (snd (deploy_site deploydir source branch committer deploytype w)).
Proof.
  apply (preserves_deploy_site _ (purge_free_stable w)). apply purge_free_refl.
Qed.









(** ** C4: the deploy queue *)

Lemma key_eqb_sym a b : key_eqb a b = key_eqb b a.
Proof.
  destruct a as [|[]| | | |], b as [|[]| | | |]; cbn -[Z.eqb String.eqb];
    try reflexivity; try apply Z.eqb_sym; apply String.eqb_sym.
Qed.

Lemma key_eqb_trans a b c :
  key_eqb a b = true -> key_eqb b c = true -> key_eqb a c = true.
Proof.
  destruct a as [|[]| | | |], b as [|[]| | | |], c as [|[]| | | |];
    cbn -[Z.eqb String.eqb];
    try discriminate; try reflexivity; intros H1 H2;
    repeat match goal with
           | H : (_ =? _)%Z = true |- _ => apply Z.eqb_eq in H
           | H : String.eqb _ _ = true |- _ => apply String.eqb_eq in H
           end; subst; try discriminate;
    try apply Z.eqb_refl; try apply String.eqb_refl; try reflexivity.
Qed.

Lemma key_eqb_refl k : hashable k = true -> key_eqb k k = true.
Proof.
  destruct k as [|[]| | | |]; cbn -[Z.eqb String.eqb]; try discriminate; intros _;
    try reflexivity; try apply Z.eqb_refl; apply String.eqb_refl.
Qed.

(** An entry under another key stays what it was *)
Lemma entries_dict_set_other {V} (d : list (pyval * V)) k2 v k :
  key_eqb k2 k = false -> entries (dict_set d k2 v) k = entries d k.
Proof.
  intro N. induction d as [|[k' v'] d IH]; cbn [dict_set entries filter fst].
  - rewrite N. reflexivity.
  - destruct (key_eqb k' k2) eqn:E; cbn [filter fst].
    + destruct (key_eqb k' k) eqn:E'; [|reflexivity].
      rewrite key_eqb_sym in E.
      rewrite (key_eqb_trans _ _ _ E E') in N. discriminate N.
    + fold (entries (dict_set d k2 v) k). fold (entries d k). rewrite IH. reflexivity.
Qed.

Lemma entries_none {V} (d : list (pyval * V)) k :
  (forall e, In e d -> key_eqb (fst e) k = false) -> entries d k = [].
Proof.
  intro H. induction d as [|e d IH]; [reflexivity|]. cbn.
  rewrite (H e (or_introl eq_refl)). apply IH. intros x Hx. apply H. right; exact Hx.
Qed.

(** After an upsert there is one entry under the key, with the new value *)
Lemma entries_dict_set_same {V} (d : list (pyval * V)) k v :
  unique_keys d -> hashable k = true ->
  exists k', entries (dict_set d k v) k = [(k', v)].
Proof.
  intros U Hk. induction d as [|[k' v'] d IH]; cbn [dict_set].
  - exists k. cbn. rewrite (key_eqb_refl _ Hk). reflexivity.
  - destruct U as [U1 U2]. destruct (key_eqb k' k) eqn:E.
    + exists k'. cbn [entries filter fst]. rewrite E. f_equal.
      apply entries_none. intros e He.
      destruct (key_eqb (fst e) k) eqn:E'; [|reflexivity].
      rewrite <- (U1 e He). symmetry. apply key_eqb_trans with (b := k); [exact E'|].
      rewrite key_eqb_sym. exact E.
    + destruct (IH U2) as [k'' IH']. exists k''.
      cbn [entries filter fst]. rewrite E. exact IH'.
Qed.

Lemma In_dict_set {V} (d : list (pyval * V)) k v e :
  In e (dict_set d k v) -> fst e = k \/ (exists e', In e' d /\ fst e = fst e').
Proof.
  induction d as [|[k' v'] d IH]; cbn [dict_set].
  - intros [<-|[]]. left; reflexivity.
  - destruct (key_eqb k' k).
    + intros [<-|H]; right.
      * exists (k', v'). split; [left; reflexivity | reflexivity].
      * exists e. split; [right; exact H | reflexivity].
    + intros [<-|H].
      * right. exists (k', v'). split; [left; reflexivity | reflexivity].
      * destruct (IH H) as [-> | (e' & He' & ->)]; [left; reflexivity|].
        right. exists e'. split; [right; exact He' | reflexivity].
Qed.

Lemma unique_keys_dict_set {V} (d : list (pyval * V)) k v :
  unique_keys d -> unique_keys (dict_set d k v).
Proof.
  induction d as [|[k' v'] d IH]; cbn [dict_set].
  - intros _. cbn. split; [intros e []| exact I].
  - intros [U1 U2]. destruct (key_eqb k' k) eqn:E.
    + split; assumption.
    + split; [|exact (IH U2)].
      intros e He. destruct (In_dict_set _ _ _ _ He) as [-> | (e' & He' & ->)].
      * rewrite key_eqb_sym. exact E.
      * exact (U1 e' He').
Qed.

Section Purity.

Variable I : world -> Prop.

Lemma preserves_py_get v key default : preserves I (py_get v key default).
Proof. destruct v; intros w H; exact H. Qed.

Lemma preserves_py_in key v : preserves I (py_in key v).
Proof. destruct v; intros w H; exact H. Qed.

Lemma preserves_py_getitem v key : preserves I (py_getitem v key).
Proof.
  destruct v; try (intros w H; exact H).
  unfold py_getitem. destruct (dict_has items key); intros w H; exact H.
Qed.

Lemma preserves_py_iter v : preserves I (py_iter v).
Proof. destruct v; intros w H; exact H. Qed.

Lemma preserves_py_startswith v p : preserves I (py_startswith v p).
Proof. destruct v; intros w H; exact H. Qed.

Lemma preserves_py_iadd_str a s : preserves I (py_iadd_str a s).
Proof. destruct a; intros w H; exact H. Qed.

Lemma preserves_all_startswith files p : preserves I (all_startswith files p).
Proof.
  induction files as [|fp files IH]; cbn [all_startswith].
  - apply preserves_ret.
  - apply preserves_bind; [apply preserves_py_startswith|].
    intros []; [exact IH | apply preserves_ret].
Qed.

End Purity.

#[export] Hint Resolve preserves_py_get preserves_py_in preserves_py_getitem
  preserves_py_iter preserves_py_startswith preserves_py_iadd_str
  preserves_all_startswith : preserve.

Section Queue.

Variable I : world -> Prop.
Hypothesis HQ : queue_only I.

Lemma queue_only_stable : stable I.
Proof. split; intros; eapply HQ; try eassumption; reflexivity. Qed.

Lemma preserves_purge_site hostname svcid : preserves I (purge_site hostname svcid).
Proof.
  intros w H. unfold purge_site.
  destruct (http_post w _ _); (eapply HQ; [|exact H]); reflexivity.
Qed.

Lemma preserves_run_entry entry : preserves I (run_entry entry).
Proof.
  pose proof queue_only_stable as HI.
  pose proof (preserves_deploy_site I HI).
  pose proof preserves_purge_site.
  unfold run_entry. destruct entry as [deploydir o]. preserves_auto.
Qed.

Lemma preserves_common_parent_py changed : preserves I (common_parent_py changed).
Proof.
  pose proof queue_only_stable as HI. unfold common_parent_py. preserves_auto.
Qed.

Lemma preserves_svn_conversion payload : preserves I (svn_conversion payload).
Proof.
  pose proof queue_only_stable as HI. pose proof preserves_common_parent_py.
  unfold svn_conversion. preserves_auto.
Qed.

Hypothesis HU : forall k o, preserves I (upsert k o).

Lemma preserves_listen_body payload : preserves I (listen_body payload).
Proof.
  pose proof queue_only_stable as HI. pose proof preserves_svn_conversion.
  unfold listen_body. preserves_auto.
Qed.

End Queue.

Lemma unique_keys_queue_only : queue_only (fun w => unique_keys (PUBSUB_QUEUE w)).
Proof. intros w w' E H. rewrite E. exact H. Qed.

Lemma upsert_unique_keys k o :
  preserves (fun w => unique_keys (PUBSUB_QUEUE w)) (upsert k o).
Proof.
  intros w H. unfold upsert. destruct (hashable k); [|exact H].
  cbn. apply unique_keys_dict_set. exact H.
Qed.

(** A drain cycle leaves the queue empty *)
Lemma run_cycle_empties w : PUBSUB_QUEUE (snd (run_cycle w)) = [].
Proof.
  assert (Q : queue_only (fun w => PUBSUB_QUEUE w = [])).
  { intros w1 w2 E H. rewrite E. exact H. }
  unfold run_cycle, drain. run_step.
  assert (P : preserves (fun w => PUBSUB_QUEUE w = [])
                        (for_each (PUBSUB_QUEUE w) run_entry ;; emit (Sleep 5))).
  { apply preserves_bind.
    - apply preserves_for_each. intro e. apply preserves_run_entry. exact Q.
    - intros _. apply preserves_emit; [apply queue_only_stable; exact Q | reflexivity]. }
  specialize (P (set_queue [] w) eq_refl).
  unfold bind in P.
  destruct (for_each (PUBSUB_QUEUE w) run_entry (set_queue [] w)) as [[[]| e |] w'];
    exact P.
Qed.

Lemma reachable_unique_keys w : reachable w -> unique_keys (PUBSUB_QUEUE w).
Proof.
  induction 1 as [w E | w payload _ IH | w _ _].
  - rewrite E. exact I.
  - exact (preserves_listen_body _ unique_keys_queue_only upsert_unique_keys
             payload w IH).
  - rewrite run_cycle_empties. exact I.
Qed.

Lemma upsert_queue k o w :
  PUBSUB_QUEUE (snd (upsert k o w))
  = if hashable k then dict_set (PUBSUB_QUEUE w) k o else PUBSUB_QUEUE w.
Proof. unfold upsert. destruct (hashable k); reflexivity. Qed.

Lemma upserts_unique_keys l w :
  unique_keys (PUBSUB_QUEUE w) -> unique_keys (PUBSUB_QUEUE (upserts l w)).
Proof.
  revert w. induction l as [|e l IH]; intros w H; [exact H|].
  cbn. apply IH. apply upsert_unique_keys. exact H.
Qed.

Lemma upserts_other l k w :
  (forall e, In e l -> key_eqb (fst e) k = false) ->
  entries (PUBSUB_QUEUE (upserts l w)) k = entries (PUBSUB_QUEUE w) k.
Proof.
  revert w. induction l as [|e l IH]; intros w H; [reflexivity|].
  cbn. rewrite IH by (intros x Hx; apply H; right; exact Hx).
  rewrite upsert_queue. destruct (hashable (fst e)); [|reflexivity].
  apply entries_dict_set_other. apply H. left; reflexivity.
Qed.

(** C4: the queue never holds two entries under one key; when two requests
    are upserted under a key before the next drain, whatever is upserted
    under any key in between and under other keys afterwards, the snapshot
    the drain takes holds one entry under that key, with the second
    request, and the queue is left empty. *)
Theorem queue_last_writer_wins :
  (forall w, reachable w -> unique_keys (PUBSUB_QUEUE w))
  /\ (forall w k r1 r2 between after,
        reachable w ->
        hashable k = true ->
        (forall e, In e after -> key_eqb (fst e) k = false) ->
        let w2 := upserts after
                    (snd (upsert k r2 (upserts between (snd (upsert k r1 w))))) in
        exists k' snapshot,
          fst (drain w2) = Normal snapshot
          /\ entries snapshot k = [(k', r2)]
          /\ unique_keys snapshot
          /\ PUBSUB_QUEUE (snd (drain w2)) = []).
Proof.
  split; [exact reachable_unique_keys|].
  intros w k r1 r2 between after R Hk Ha w2.
  assert (U : unique_keys (PUBSUB_QUEUE (upserts between (snd (upsert k r1 w))))).
  { apply upserts_unique_keys, upsert_unique_keys, reachable_unique_keys, R. }
  destruct (entries_dict_set_same _ k r2 U Hk) as [k' E].
  exists k', (PUBSUB_QUEUE w2). split; [reflexivity|]. split; [|split].
  - unfold w2. rewrite upserts_other by exact Ha.
    rewrite upsert_queue, Hk. exact E.
  - unfold w2. apply upserts_unique_keys, upsert_unique_keys. exact U.
  - reflexivity.
Qed.

(** ** C9: the event loop *)

(** C9 at the failing input: a message whose branch is null makes the
    normalizer raise [AttributeError], which [listen] does not catch: the
    loop ends there, the messages that follow are not read and nothing is
    logged. *)
Theorem malformed_message_ends_listen w rest :
  let action := if PUBLISH w then "publish"%string else "staging"%string in
  let message :=
    VDict [(action,
            VDict [("project", VStr "foo");
                   ("source", VStr "https://gitbox.apache.org/repos/asf/foo.git");
                   ("branch", VNone)])] in
  listen (message :: rest) w = (Raised AttributeError, w).
Proof.
  destruct w as [d c t n ex np hp publish key cfg repr q].
  unfold listen. cbn [for_each PUBLISH]. unfold bind at 1. unfold bind at 1.
  assert (E : forall w, PUBLISH w = publish ->
              listen_body
                (VDict [(if publish then "publish"%string else "staging"%string,
                         VDict [("project", VStr "foo");
                                ("source",
                                 VStr "https://gitbox.apache.org/repos/asf/foo.git");
                                ("branch", VNone)])]) w
              = (Raised AttributeError, w)).
  { intros w E. unfold listen_body, try_except. unfold bind at 1. rewrite E.
    destruct publish; reflexivity. }
  rewrite E by reflexivity. reflexivity.
Qed.

(** ** The theorems at work on sample machines *)


(** C3 on the target [foo/../../etc], rejected at once, and on the target
    [foo.apache.org], which resolves below the root. *)
Lemma unsafe_deploydir_rejected_witness :
  let w := quiet_world true "key" ["/www"]%string in
  (exists fmt,
      deploy_site (VStr "foo/../../etc") VNone "" VNone "website" w
      = syslog LOG_WARNING fmt [AStr "foo/../../etc"] w)
  /\ within ROOT_DIR (target_path "foo.apache.org" "website") = true.
Proof.
  intro w. split.
  - apply (unsafe_deploydir_rejected w "foo/../../etc" VNone "" VNone "website").
    left. reflexivity.
  - apply (unsafe_deploydir_rejected
             w "foo.apache.org"
             (VStr "https://github.com/apache/foo.git") "main" VNone "website");
      [reflexivity | reflexivity | discriminate].
Defined.

(** C4 on two requests for foo.apache.org with a request for another site
    in between and one after. *)
Lemma queue_last_writer_wins_witness :
  let w := quiet_world true "key" ["/www"]%string in
  let k := VStr "foo.apache.org" in
  let other := (VStr "bar.apache.org", site_opts "bar" "asf-site") in
  let w2 := upserts [other]
              (snd (upsert k (site_opts "foo" "main")
                      (upserts [other] (snd (upsert k (site_opts "foo" "asf-site") w))))) in
  unique_keys (PUBSUB_QUEUE w)
  /\ exists k' snapshot,
      fst (drain w2) = Normal snapshot
      /\ entries snapshot k = [(k', site_opts "foo" "main")]
      /\ unique_keys snapshot
      /\ PUBSUB_QUEUE (snd (drain w2)) = [].
Proof.
  intros w k other w2.
  assert (R : reachable w) by (apply reach_start; reflexivity).
  destruct queue_last_writer_wins as [U L]. split.
  - apply U. exact R.
  - apply (L w k (site_opts "foo" "asf-site") (site_opts "foo" "main")
             [other] [other]).
    + exact R.
    + reflexivity.
    + intros e [<-|[]]. reflexivity.
Defined.


(** ** More on the common-ancestor resolver *)

Lemma all_startswith_strings files p w :
  all_startswith (map VStr files) p w
  = (Normal (forallb (fun fp => Str.startswith fp p) files), w).
Proof.
  induction files as [|f files IH]; cbn [map all_startswith forallb].
  - reflexivity.
  - unfold bind. cbn [py_startswith ret]. destruct (Str.startswith f p); cbn [andb].
    + exact IH.
    + reflexivity.
Qed.

Lemma fold_m_common_parent files l top w :
  fold_m (map VStr l)
    (fun top_directory filename =>
       go <- (if String.eqb top_directory "/" then ret true
              else b <- py_startswith filename top_directory ;;
                   ret (negb b)) ;;
       if go : bool
       then
         match filename with
         | VStr f =>
             let bits := let (h, t) := Path.split f in [h; t] in
             fold_m (range 0 (length bits - 1))
               (fun top_directory i =>
                  let tmp_path :=
                    (Path.join (nth 0 bits "") (slice bits 1 i) ++ "/")%string in
                  ok <- all_startswith (map VStr files) tmp_path ;;
                  ret (if ok : bool then tmp_path else top_directory))
               top_directory
         | _ => raise TypeError
         end
       else ret top_directory)
    top w
  = (Normal (fold_left (cp_step files) l top), w).
Proof.
  revert top. induction l as [|f l IH]; intro top; cbn [map fold_m fold_left].
  - reflexivity.
  - unfold bind at 1.
    match goal with
    | |- (let (o, w') := ?X in _) = _ =>
        assert (E : X = (Normal (cp_step files top f), w)); [|rewrite E; apply IH]
    end.
    unfold cp_step, parent_dir, shared.
    destruct (Path.split f) as [h t]. cbn [fst].
    destruct (String.eqb top "/"); cbn [orb].
    + unfold bind at 1. cbn [ret].
      cbn [length Nat.sub range seq fold_m nth slice skipn firstn Path.join fold_left].
      unfold bind. rewrite all_startswith_strings.
      cbn [ret]. reflexivity.
    + unfold bind at 1. unfold bind at 1. cbn [py_startswith ret].
      destruct (Str.startswith f top); cbn [negb]; [reflexivity|].
      cbn [length Nat.sub range seq fold_m nth slice skipn firstn Path.join fold_left].
      unfold bind. rewrite all_startswith_strings.
      cbn [ret]. reflexivity.
Qed.

(** On strings the call of [listen] is [common_parent] and changes nothing *)
Lemma common_parent_py_strings changed files w :
  py_iter changed = ret (map VStr files) ->
  common_parent_py changed w = (Normal (common_parent files), w).
Proof.
  intro H. unfold common_parent_py. unfold bind at 1. rewrite H. cbn [ret].
  unfold bind at 1. rewrite fold_m_common_parent.
  rewrite common_parent_unfold. reflexivity.
Qed.

Lemma all_startswith_outcome files p w :
  (exists b, all_startswith files p w = (Normal b, w))
  \/ all_startswith files p w = (Raised AttributeError, w).
Proof.
  induction files as [|f files IH]; cbn [all_startswith].
  - left. eexists; reflexivity.
  - unfold bind. destruct f; cbn [py_startswith raise ret]; try (right; reflexivity).
    destruct (Str.startswith s p); [exact IH|]. left. eexists; reflexivity.
Qed.

Lemma common_parent_round_outcome files top filename w :
  (exists top', common_parent_round files top filename w = (Normal top', w)
                /\ exists f, filename = VStr f)
  \/ type_failure (common_parent_round files top filename w) w.
Proof.
  unfold common_parent_round, type_failure.
  assert (S : forall f,
             (exists top',
                 (let bits := let (h, t) := Path.split f in [h; t] in
                  fold_m (range 0 (length bits - 1))
                    (fun top_directory i =>
                       let tmp_path :=
                         (Path.join (nth 0 bits "") (slice bits 1 i) ++ "/")%string in
                       ok <- all_startswith files tmp_path ;;
                       ret (if ok : bool then tmp_path else top_directory))
                    top) w = (Normal top', w))
             \/ (let bits := let (h, t) := Path.split f in [h; t] in
                 fold_m (range 0 (length bits - 1))
                   (fun top_directory i =>
                      let tmp_path :=
                        (Path.join (nth 0 bits "") (slice bits 1 i) ++ "/")%string in
                      ok <- all_startswith files tmp_path ;;
                      ret (if ok : bool then tmp_path else top_directory))
                   top) w = (Raised AttributeError, w)).
  { intro f. destruct (Path.split f) as [h t].
    cbn [length Nat.sub range seq fold_m nth slice skipn firstn Path.join fold_left].
    unfold bind.
    destruct (all_startswith_outcome files (h ++ "/")%string w) as [[b E] | E];
      rewrite E; cbn [ret]; [left; eexists; reflexivity | right; reflexivity]. }
  destruct (String.eqb top "/").
  - unfold bind at 1. cbn [ret].
    destruct filename as [| | |f| |]; try (right; left; reflexivity).
    destruct (S f) as [[top' E] | E].
    + left. exists top'. split; [exact E | eexists; reflexivity].
    + right. right. exact E.
  - destruct filename as [| | |f| |];
      try (right; right; reflexivity).
    unfold bind at 1. unfold bind at 1. cbn [py_startswith ret].
    destruct (Str.startswith f top); cbn [negb].
    + left. eexists. split; [reflexivity | eexists; reflexivity].
    + destruct (S f) as [[top' E] | E].
      * left. exists top'. split; [exact E | eexists; reflexivity].
      * right. right. exact E.
Qed.

Lemma fold_m_round_fails files l top v w :
  In v l -> (forall s, v <> VStr s) ->
  type_failure (fold_m l (common_parent_round files) top w) w.
Proof.
  intros Hin Hv. revert top. induction l as [|x l IH]; intro top; [destruct Hin|].
  cbn [fold_m]. unfold bind.
  destruct (common_parent_round_outcome files top x w)
    as [(top' & E & f & Hf) | [E | E]]; rewrite E.
  - destruct Hin as [-> | Hin]; [exfalso; exact (Hv f Hf)|].
    apply IH. exact Hin.
  - left; reflexivity.
  - right; reflexivity.
Qed.

(** X2: what [common_parent] does with what a message holds under
    ["changed"].  On a list of strings, or a dict (its keys), it computes
    the common parent and has no effect; on a list with an element that is
    not a string it raises [TypeError] or [AttributeError]; on a number, a
    boolean or null it raises [TypeError]. *)
Theorem common_parent_py_typing changed w :
  (forall files, py_iter changed = ret (map VStr files) ->
                 common_parent_py changed w = (Normal (common_parent files), w))
  /\ (forall l v, changed = VList l -> In v l -> (forall s, v <> VStr s) ->
                  type_failure (common_parent_py changed w) w)
  /\ (hashable changed = true -> (forall s, changed <> VStr s) ->
      common_parent_py changed w = (Raised TypeError, w)).
Proof.
  split; [|split].
  - intros files H. apply common_parent_py_strings. exact H.
  - intros l v -> Hin Hv. unfold common_parent_py. unfold bind at 1.
    cbn [py_iter ret]. unfold bind at 1.
    change (fun (top_directory : string) (filename : pyval) => _)
      with (common_parent_round l).
    destruct (fold_m_round_fails l l "/" v w Hin Hv) as [E | E]; rewrite E;
      [left | right]; reflexivity.
  - intros H N. destruct changed; try discriminate H;
      try (exfalso; eapply N; reflexivity); reflexivity.
Qed.

(** ** Commits to one directory *)

Lemma rfind_app_sep d name c :
  Str.rfind name c = (-1)%Z ->
  Str.rfind (d ++ String c name) c = Z.of_nat (String.length d).
Proof.
  intro H. induction d as [|a d IH].
  - cbn [String.append String.length Str.rfind]. rewrite H.
    cbn. rewrite Ascii.eqb_refl. reflexivity.
  - cbn [String.append String.length Str.rfind]. rewrite IH.
    destruct (0 <=? Z.of_nat (String.length d))%Z eqn:E; [lia|].
    apply Z.leb_gt in E. lia.
Qed.

Lemma take_app_sep d name c :
  Str.take (String.length d + 1) (d ++ String c name) = (d ++ String c "")%string.
Proof.
  induction d as [|a d IH]; cbn [String.append String.length Nat.add Str.take].
  - reflexivity.
  - rewrite IH. reflexivity.
Qed.

Lemma drop_app_sep d name c :
  Str.drop (String.length d + 1) (d ++ String c name) = name.
Proof.
  induction d as [|a d IH]; cbn [String.append String.length Nat.add Str.drop].
  - reflexivity.
  - exact IH.
Qed.

Lemma rstrip_cons a r c :
  Str.rstrip (String a r) c
  = match Str.rstrip r c with
    | EmptyString => if Ascii.eqb a c then EmptyString else String a EmptyString
    | String x r' => String a (String x r')
    end.
Proof. reflexivity. Qed.

Lemma rstrip_app_sep d c :
  d <> ""%string -> Str.rstrip d c = d -> Str.rstrip (d ++ String c "") c = d.
Proof.
  induction d as [|a d IH]; intros N H; [contradiction|].
  cbn [String.append]. rewrite rstrip_cons in H |- *.
  destruct d as [|b d].
  - cbn [String.append Str.rstrip] in *. rewrite Ascii.eqb_refl.
    destruct (Ascii.eqb a c); [discriminate H | reflexivity].
  - assert (R : Str.rstrip (String b d) c = String b d).
    { destruct (Str.rstrip (String b d) c) as [|x r].
      - destruct (Ascii.eqb a c); discriminate H.
      - injection H as H1 H2. rewrite H1, H2. reflexivity. }
    rewrite IH by (discriminate || exact R). reflexivity.
Qed.

Lemma rstrip_repeat c n : Str.rstrip (Str.repeat c n) c = ""%string.
Proof.
  induction n as [|n IH]; cbn [Str.repeat Str.rstrip]; [reflexivity|].
  rewrite IH, Ascii.eqb_refl. reflexivity.
Qed.

(** [os.path.split] of a name in a directory *)
Lemma split_in_directory d name :
  d <> ""%string -> Str.rstrip d Path.sep = d ->
  Str.rfind name Path.sep = (-1)%Z ->
  Path.split (d ++ "/" ++ name) = (d, name).
Proof.
  intros N R F. unfold Path.split.
  change (d ++ "/" ++ name)%string with (d ++ String Path.sep name)%string.
  rewrite (rfind_app_sep d name Path.sep F).
  replace (Z.to_nat (Z.of_nat (String.length d) + 1)) with (String.length d + 1)%nat
    by lia.
  rewrite take_app_sep, drop_app_sep.
  pose proof (rstrip_app_sep d Path.sep N R) as S.
  assert (C : negb (String.eqb (d ++ String Path.sep "") "")
              && negb (String.eqb (d ++ String Path.sep "")
                         (Str.repeat Path.sep
                            (String.length (d ++ String Path.sep "")))) = true).
  { apply andb_true_intro. split; apply negb_true_iff; apply String.eqb_neq.
    - destruct d; discriminate.
    - intro E. rewrite E, rstrip_repeat in S. apply N. symmetry. exact S. }
  rewrite C, S. reflexivity.
Qed.

Lemma append_assoc (a b c : string) : ((a ++ b) ++ c = a ++ b ++ c)%string.
Proof. induction a as [|x a IH]; cbn [String.append]; [reflexivity | rewrite IH; reflexivity]. Qed.

(** X1: when the files of a commit all lie directly in one directory,
    [common_parent] returns that directory with a slash at its end. *)
Theorem common_parent_one_directory d names :
  names <> [] ->
  d <> ""%string -> Str.rstrip d Path.sep = d ->
  Forall (fun n => Str.rfind n Path.sep = (-1)%Z) names ->
  common_parent (map (fun n => d ++ "/" ++ n)%string names) = (d ++ "/")%string.
Proof.
  intros NE N R F. rewrite common_parent_first_shared.
  set (P := map _ names).
  assert (PD : forall f, In f P -> parent_dir f = (d ++ "/")%string).
  { intros f I. apply in_map_iff in I as (n & <- & I).
    rewrite Forall_forall in F. unfold parent_dir.
    rewrite (split_in_directory d n N R (F n I)). reflexivity. }
  assert (S : shared P (d ++ "/") = true).
  { apply shared_spec, Forall_forall. intros f I.
    apply in_map_iff in I as (n & <- & _).
    rewrite <- append_assoc. apply startswith_app. }
  destruct names as [|n names]; [contradiction|].
  assert (I : In (d ++ "/" ++ n)%string P) by (left; reflexivity).
  specialize (PD _ I). subst P. cbn [map find] in S |- *.
  rewrite PD, S. exact PD.
Qed.
(** ** More on the VCS executor *)



(** X4: a source that is not a string makes [checkout_git_repo] raise
    [TypeError] when it builds the command line, after it has removed the
    tree of an existing target: the checkout is gone and no clone is
    launched. *)
Theorem checkout_git_repo_bad_source_removes w path source branch :
  (forall s, source <> VStr s) ->
  is_dir w ROOT_DIR = true ->
  dirs w (Path.abspath ROOT_DIR path) = true ->
  let r := checkout_git_repo path source branch w in
  fst r = Raised TypeError
  /\ trace (snd r)
     = trace w ++ [Chdir ROOT_DIR;
                   Syslog LOG_INFO "Doing recursive delete of path %s" [AStr path];
                   Rmtree path;
                   Syslog LOG_INFO "Checking out %s (%s) as %s..."
                          [AVal source; AStr branch; AStr path]]
  /\ (forall q, dirs (snd r) q = removed (dirs w) (Path.abspath ROOT_DIR path) q).
Proof.
  intros HS HR HP r. subst r. unfold checkout_git_repo.
  unfold is_dir in HR. rewrite abspath_ROOT_DIR in HR.
  destruct source; try (exfalso; eapply HS; reflexivity);
    run_step; rewrite abspath_ROOT_DIR, HR; run_step; rewrite HP; run_step;
    norm_world; repeat split; reflexivity.
Qed.

(** X5: in a directory that exists [do_svn_up] always returns normally and
    launches one process, [svn up] under the timeout; elsewhere it raises
    at once. *)
Theorem do_svn_up_always_returns w path :
  let r := do_svn_up path w in
  (is_dir w path = true ->
   fst r = Normal tt
   /\ exists evs,
       trace (snd r) = trace w ++ evs
       /\ spawns evs = [Spawn [SVN_CMD; "up"] true (Some CHECKOUT_TIMEOUT)]
       /\ existsb is_rmtree evs = false)
  /\ (is_dir w path = false -> r = (Raised FileNotFoundError, w)).
Proof.
  intro r. subst r. split.
  - intro HP. rewrite do_svn_up_run by assumption. cbv zeta.
    match goal with
    | |- context [if ?a then _ else if ?b then _ else _] => destruct a; [|destruct b]
    end; (split; [reflexivity|]); run_step; norm_world;
      (eexists; split; [reflexivity|]; split; reflexivity).
  - intro HP. unfold do_svn_up. unfold is_dir in HP. run_step.
    rewrite HP. reflexivity.
Qed.

(** ** The other rows of the reconciliation table *)







(** X21: the two commands by which [deploy_site] reads the origin and the
    branch of a checkout are launched without a timeout, and their output
    is decoded where only the failure of a process is handled.  When one
    of them never ends [deploy_site] does not return; when one of them
    ends with status 0 and prints bytes that are not UTF-8 [deploy_site]
    raises [UnicodeDecodeError].  Either way it has done nothing but
    change directory and launch these commands. *)
Theorem deploy_site_metadata_unguarded
        w deploydir source branch committer deploytype :
  let path := target_path deploydir deploytype in
  let p1 := origin_process w path in
  let p2 := head_process w path in
  let r := deploy_site (VStr deploydir) source branch committer deploytype w in
  prevalidation (cwd w) deploydir source branch deploytype = Accepted ->
  is_dir w path = true ->
  is_dir w (Path.join path [".svn"]) = false ->
  (duration p1 = None -> r = (Blocked, after_origin w path))
  /\ (duration p1 <> None -> returncode p1 = 0%Z ->
      (Utf8.valid (output p1) = false ->
       r = (Raised UnicodeDecodeError, after_origin w path))
      /\ (Utf8.valid (output p1) = true ->
          (duration p2 = None -> r = (Blocked, after_metadata w path))
          /\ (duration p2 <> None -> returncode p2 = 0%Z ->
              Utf8.valid (output p2) = false ->
              r = (Raised UnicodeDecodeError, after_metadata w path)))).
Proof.
  intros path p1 p2 r HV HP HS. subst r.
  rewrite deploy_site_accepted by exact HV. fold path.
  rewrite reconcile_checkout
    by (try apply target_path_isabs; assumption).
  cbv zeta. fold p1 p2. split.
  - intros ->. reflexivity.
  - intros D1 R1. destruct (duration p1) as [d1|]; [|contradiction].
    rewrite R1. cbn [Z.eqb negb]. split.
    + intros ->. reflexivity.
    + intros ->. cbn [negb]. split.
      * intros ->. reflexivity.
      * intros D2 R2 V2. destruct (duration p2) as [d2|]; [|contradiction].
        rewrite R2, V2. reflexivity.
Qed.
(** ** The drain cycle *)

Create HintDb unblock.

Lemma unblocked_ret {A} (a : A) : unblocked (ret a).
Proof. intros w H; split; [discriminate | exact H]. Qed.

Lemma unblocked_raise {A} (e : exn) : unblocked (@raise A e).
Proof. intros w H; split; [discriminate | exact H]. Qed.

Lemma unblocked_read {A} (f : world -> A) :
  unblocked (fun w => (Normal (f w), w)).
Proof. intros w H; split; [discriminate | exact H]. Qed.

Lemma unblocked_bind {A B} (m : M A) (k : A -> M B) :
  unblocked m -> (forall a, unblocked (k a)) -> unblocked (bind m k).
Proof.
  intros Hm Hk w H. unfold bind. destruct (Hm w H) as [N F].
  destruct (m w) as [[a| e |] w']; cbn [fst snd] in *.
  - apply Hk; exact F.
  - split; [discriminate | exact F].
  - contradiction.
Qed.

Lemma unblocked_try {A} (m : M A) (h : exn -> option (M A)) :
  unblocked m -> (forall e k, h e = Some k -> unblocked k) ->
  unblocked (try_except m h).
Proof.
  intros Hm Hh w H. unfold try_except. destruct (Hm w H) as [N F].
  destruct (m w) as [[a| e |] w']; cbn [fst snd] in *.
  - split; [discriminate | exact F].
  - destruct (h e) as [k|] eqn:E; [apply (Hh e k E); exact F|].
    split; [discriminate | exact F].
  - contradiction.
Qed.

Lemma unblocked_for_each {A} (l : list A) (body : A -> M unit) :
  (forall x, unblocked (body x)) -> unblocked (for_each l body).
Proof.
  intro Hb. induction l as [|x l IH]; cbn [for_each].
  - apply unblocked_ret.
  - apply unblocked_bind; auto.
Qed.

Lemma unblocked_emit e : unblocked (emit e).
Proof. intros w H; split; [discriminate | exact H]. Qed.

Lemma unblocked_syslog p fmt args : unblocked (syslog p fmt args).
Proof. apply unblocked_emit. Qed.

Lemma unblocked_isdir path : unblocked (isdir path).
Proof. intros w H; split; [discriminate | exact H]. Qed.

Lemma unblocked_chdir path : unblocked (chdir path).
Proof.
  intros w H. unfold chdir. destruct (dirs w _); split;
    try discriminate; exact H.
Qed.

Lemma unblocked_rmtree path : unblocked (rmtree path).
Proof. intros w H; split; [discriminate | exact H]. Qed.

Lemma unblocked_check_output args e t : unblocked (check_output args e t).
Proof.
  intros w H. unfold check_output.
  destruct (argv_strings args) as [argv|]; [|split; [discriminate | exact H]].
  pose proof (H (nspawn w) argv (cwd w) (dirs w)) as D.
  destruct (duration _) as [d|]; [|contradiction].
  destruct t as [t|]; [destruct (d <=? t)%Z|];
    try destruct (returncode _ =? 0)%Z; split; try discriminate; exact H.
Qed.

Lemma unblocked_decode_utf8 b : unblocked (decode_utf8 b).
Proof.
  intros w H. unfold decode_utf8. destruct (Utf8.valid b); split;
    try discriminate; exact H.
Qed.

Lemma unblocked_purge_site hostname svcid : unblocked (purge_site hostname svcid).
Proof.
  intros w H. unfold purge_site. destruct (http_post w _ _); split;
    try discriminate; exact H.
Qed.

#[export] Hint Resolve unblocked_ret unblocked_raise unblocked_read
  unblocked_emit unblocked_syslog unblocked_isdir unblocked_chdir
  unblocked_rmtree unblocked_check_output unblocked_decode_utf8
  unblocked_purge_site : unblock.

Ltac unblocked_step :=
  match goal with
  | |- unblocked (bind _ _) => apply unblocked_bind; [|intro]
  | |- unblocked (try_except _ _) => apply unblocked_try; [|intros ? ? ?]
  | |- unblocked (for_each _ _) => apply unblocked_for_each; intro
  | |- unblocked (if ?b then _ else _) => destruct b
  | |- unblocked (match ?x with _ => _ end) => destruct x
  | H : match ?e with _ => _ end = Some _ |- _ =>
      destruct e; try discriminate H; injection H as <-
  | H : Some _ = Some _ |- _ => injection H as <-
  | H : None = Some _ |- _ => discriminate H
  | |- unblocked _ => solve [eauto with unblock]
  end.

Ltac unblocked_auto := repeat unblocked_step.

Lemma unblocked_checkout_git_repo path source branch :
  unblocked (checkout_git_repo path source branch).
Proof. unfold checkout_git_repo. unblocked_auto. Qed.

Lemma unblocked_do_git_pull path branch : unblocked (do_git_pull path branch).
Proof. unfold do_git_pull. unblocked_auto. Qed.

Lemma unblocked_do_svn_up path : unblocked (do_svn_up path).
Proof. unfold do_svn_up. unblocked_auto. Qed.

#[export] Hint Resolve unblocked_checkout_git_repo unblocked_do_git_pull
  unblocked_do_svn_up : unblock.

Lemma unblocked_reconcile path source branch deploytype :
  unblocked (reconcile path source branch deploytype).
Proof. unfold reconcile. unblocked_auto. Qed.

#[export] Hint Resolve unblocked_reconcile : unblock.

Lemma unblocked_deploy_site deploydir source branch committer deploytype :
  unblocked (deploy_site deploydir source branch committer deploytype).
Proof. unfold deploy_site. unblocked_auto. Qed.

#[export] Hint Resolve unblocked_deploy_site : unblock.

Lemma unblocked_run_entry entry : unblocked (run_entry entry).
Proof. unfold run_entry. destruct entry as [deploydir o]. unblocked_auto. Qed.

(** The handler of [deploy.run] lets nothing through *)
Lemma run_entry_never_raises entry w e : fst (run_entry entry w) <> Raised e.
Proof.
  destruct entry as [deploydir o]. unfold run_entry, try_except.
  set (body := bind _ _). destruct (body w) as [[[]| e' |] w']; discriminate.
Qed.

Lemma for_each_run_entry l w :
  match fst (for_each l run_entry w) with
  | Normal _ => snd (for_each l run_entry w) = run_entries l w
  | Raised _ => False
  | Blocked => True
  end.
Proof.
  revert w. induction l as [|x l IH]; intro w; cbn [for_each].
  - reflexivity.
  - unfold bind. pose proof (run_entry_never_raises x w) as N.
    destruct (run_entry x w) as [[[]| e |] w'] eqn:E; cbn [fst snd] in *.
    + specialize (IH w'). unfold run_entries. cbn [fold_left]. rewrite E.
      exact IH.
    + exact (N e eq_refl).
    + exact I.
Qed.

(** X9: a drain cycle lets no exception through and leaves the queue empty;
    on a machine whose processes all end it returns normally, having run
    the entries of the snapshot one after the other in the order of the
    queue, each in the state the one before has left whether it failed or
    not, and it ends with the sleep. *)
Theorem drain_cycle_isolates_failures w :
  (forall e, fst (run_cycle w) <> Raised e)
  /\ PUBSUB_QUEUE (snd (run_cycle w)) = []
  /\ (finite w ->
      run_cycle w
      = emit (Sleep 5) (run_entries (PUBSUB_QUEUE w) (set_queue [] w))).
Proof.
  split; [|split].
  - intro e. unfold run_cycle, drain. run_step.
    pose proof (for_each_run_entry (PUBSUB_QUEUE w) (set_queue [] w)) as F.
    destruct (for_each (PUBSUB_QUEUE w) run_entry (set_queue [] w))
      as [[[]| e' |] w']; cbn [fst] in *; try discriminate. contradiction.
  - apply run_cycle_empties.
  - intro HF. unfold run_cycle, drain. run_step.
    pose proof (for_each_run_entry (PUBSUB_QUEUE w) (set_queue [] w)) as F.
    assert (U : unblocked (for_each (PUBSUB_QUEUE w) run_entry)).
    { apply unblocked_for_each. intro x. apply unblocked_run_entry. }
    destruct (U (set_queue [] w) HF) as [N _].
    destruct (for_each (PUBSUB_QUEUE w) run_entry (set_queue [] w))
      as [[[]| e' |] w']; cbn [fst snd] in *.
    + rewrite F. reflexivity.
    + contradiction.
    + contradiction.
Qed.

(** X18: a purge request that fails.  When [deploy_site] has returned for
    an entry that is not a blog, on a publishing host with a key, and the
    purge request is not answered, the failure is logged under the message
    of a failed deploy, no further purge is requested for the entry (not
    even apache.org for www.apache.org), and the entry ends normally. *)
Theorem failed_purge_is_logged_as_failed_deploy w deploydir o :
  let d := deploy_site deploydir (o_source o) (o_branch o) (o_committer o)
                       (o_deploytype o) w in
  let url := purge_url FASTLY_SVC_ID (py_str (py_repr w) (o_hostname o)) in
  fst d = Normal tt ->
  PUBLISH w = true -> FASTLY_API_KEY w <> ""%string ->
  o_deploytype o <> "blog"%string ->
  http_post w (nposts w) url = None ->
  let r := run_entry (deploydir, o) w in
  fst r = Normal tt
  /\ trace (snd r)
     = trace (snd d)
       ++ [HttpPost url [("Accept", "application/json");
                         ("Fastly-Soft-Purge", "1");
                         ("Fastly-Key", FASTLY_API_KEY w)]%string 10;
           Syslog LOG_WARNING "BORK: Could not deploy to %s: %s"
                  [AVal deploydir; AExn RequestException]].
Proof.
  intros d url HD HP HK HB HH r.
  pose proof (deploy_site_purge_free w deploydir (o_source o) (o_branch o)
                (o_committer o) (o_deploytype o)) as F.
  fold d in F. destruct F as (FP & FK & FH & FN & FR & _).
  enough (E : exists w2,
             run_entry (deploydir, o) w = (Normal tt, w2)
             /\ trace w2
                = trace (snd d)
                  ++ [HttpPost url [("Accept", "application/json");
                                    ("Fastly-Soft-Purge", "1");
                                    ("Fastly-Key", FASTLY_API_KEY w)]%string 10;
                      Syslog LOG_WARNING "BORK: Could not deploy to %s: %s"
                             [AVal deploydir; AExn RequestException]]).
  { subst r. destruct E as (w2 & -> & T). split; [reflexivity | exact T]. }
  unfold run_entry, try_except. unfold bind at 1. fold d.
  destruct d as [[[]| e |] w1]; cbn [fst snd] in *; try discriminate HD.
  unfold bind at 1. unfold bind at 1. rewrite FP, FK, HP.
  destruct (String.eqb_spec (FASTLY_API_KEY w) ""); [contradiction|].
  cbn [negb andb].
  destruct (String.eqb_spec (o_deploytype o) "blog"); [contradiction|].
  cbv beta iota delta [bind ret]. unfold purge_site at 1.
  rewrite FR, FN, FH, FK. fold (purge_url FASTLY_SVC_ID (py_str (py_repr w) (o_hostname o))).
  fold url. rewrite HH.
  unfold syslog, emit. eexists. split; [reflexivity|].
  cbn [fst snd trace set_trace set_nposts]. rewrite <- app_assoc. reflexivity.
Qed.
(** ** The event normalizer *)

Ltac run_listen :=
  cbv beta iota zeta delta
    [listen_body svn_conversion bind ret raise try_except py_in py_getitem
     py_get is_ValueError fst snd].

Lemma svn_conversion_foreign items w :
  dict_has items "commit" = false ->
  svn_conversion (VDict items) w = (Normal (VDict items), w).
Proof. intro H. run_listen. rewrite H. reflexivity. Qed.

Lemma svn_conversion_unknown payload w :
  unknown_commit payload -> svn_conversion payload w = (Normal payload, w).
Proof.
  intros (items & -> & Hc & H). run_listen. rewrite Hc. cbv beta iota.
  destruct (dict_get items "commit" VNone) as [| | | | |citems]; try reflexivity.
  destruct H as [H | [Hh Hu]].
  - rewrite H. reflexivity.
  - destruct (eq_str (dict_get citems "type" (VStr "")) "svn"); [|reflexivity].
    rewrite Hh. cbn [negb].
    destruct (dict_get citems "repository" (VStr "")) as [| | |u| |];
      try reflexivity.
    rewrite (Hu u eq_refl). reflexivity.
Qed.

Lemma listen_body_no_action payload w :
  svn_conversion payload w = (Normal payload, w) ->
  (exists items, payload = VDict items
                 /\ dict_has items (expected_action w) = false) ->
  listen_body payload w = (Normal tt, w).
Proof.
  intros S (items & -> & Ha). unfold listen_body, try_except.
  unfold bind at 1. unfold bind at 1. unfold bind at 1. rewrite S.
  unfold bind at 1. unfold py_in, ret. unfold expected_action in Ha.
  destruct (PUBLISH w); cbn [negb]; rewrite Ha; reflexivity.
Qed.

(** X10: messages that carry neither the key of this host nor a commit, and
    commits the conversion does not know (not an object, not of type svn,
    or from a repository that is not listed), are skipped without a trace:
    nothing is logged and nothing is queued.  When the stream ends after
    such messages only, [listen] logs the disconnection and returns. *)
Theorem listen_skips_foreign_messages w payloads :
  Forall (fun p => foreign w p
                   \/ (unknown_commit p
                       /\ exists items, p = VDict items
                                        /\ dict_has items (expected_action w) = false))
         payloads ->
  Forall (fun p => listen_body p w = (Normal tt, w)) payloads
  /\ listen payloads w
     = syslog LOG_WARNING "Disconnected from %s, reconnecting" [AStr PUBSUB_URL] w.
Proof.
  intro H.
  assert (B : Forall (fun p => listen_body p w = (Normal tt, w)) payloads).
  { eapply Forall_impl; [|exact H]. intros p [(items & -> & Hc & Ha) | [U A]].
    - apply listen_body_no_action; [apply svn_conversion_foreign; exact Hc|].
      eexists; split; [reflexivity | exact Ha].
    - apply listen_body_no_action; [apply svn_conversion_unknown; exact U | exact A]. }
  split; [exact B|]. unfold listen.
  clear H. induction B as [|p l Hp _ IH]; cbn [for_each].
  - reflexivity.
  - unfold bind at 1. unfold bind at 1. rewrite Hp. exact IH.
Qed.

(** X11: a message that is a number, a boolean or null is not a container:
    the membership test of [listen] raises [TypeError], which is not
    caught, and the messages that follow are not read. *)
Theorem listen_scalar_message_raises w payload rest :
  hashable payload = true ->
  (forall s, payload <> VStr s) ->
  listen (payload :: rest) w = (Raised TypeError, w).
Proof.
  intros H N. unfold listen. cbn [for_each]. unfold bind at 1. unfold bind at 1.
  assert (E : listen_body payload w = (Raised TypeError, w)).
  { destruct payload; try discriminate H;
      try (exfalso; eapply N; reflexivity); reflexivity. }
  rewrite E. reflexivity.
Qed.

(** ** What the queue holds *)

Lemma dict_set_well_formed d k v :
  Forall well_formed d -> well_formed (k, v) -> Forall well_formed (dict_set d k v).
Proof.
  intros Hd Hv. induction Hd as [|[k' v'] d Hk' Hd IH]; cbn [dict_set].
  - constructor; [exact Hv | constructor].
  - destruct (key_eqb k' k).
    + constructor; [|exact Hd].
      destruct Hk' as [H _], Hv as [_ Hv]. split; [exact H | exact Hv].
    + constructor; [exact Hk' | exact IH].
Qed.

Lemma well_formed_queue_only : queue_only (fun w => Forall well_formed (PUBSUB_QUEUE w)).
Proof. intros w w' E H. rewrite E. exact H. Qed.

Lemma normal_deploytype v :
  In (match v with
      | VStr t =>
          if String.eqb t "website" || String.eqb t "blog" || String.eqb t "svn"
          then t else "website"%string
      | _ => "website"%string
      end) ["website"; "blog"; "svn"]%string.
Proof.
  destruct v as [| | |t| |]; try (left; reflexivity).
  destruct (String.eqb_spec t "website") as [->|]; [left; reflexivity|].
  destruct (String.eqb_spec t "blog") as [->|]; [right; left; reflexivity|].
  destruct (String.eqb_spec t "svn") as [->|]; [right; right; left; reflexivity|].
  left; reflexivity.
Qed.

Lemma upsert_well_formed k source branch committer hostname v :
  truthy hostname && truthy source && negb (String.eqb branch "") = true ->
  preserves (fun w => Forall well_formed (PUBSUB_QUEUE w))
    (upsert k {| o_source := source; o_branch := branch; o_committer := committer;
                 o_hostname := hostname;
                 o_deploytype :=
                   match v with
                   | VStr t =>
                       if String.eqb t "website" || String.eqb t "blog"
                          || String.eqb t "svn"
                       then t else "website"%string
                   | _ => "website"%string
                   end |}).
Proof.
  intros E w H. unfold upsert. destruct (hashable k) eqn:Hk; [|exact H].
  cbn. apply dict_set_well_formed; [exact H|].
  apply andb_prop in E as [E Eb]. apply andb_prop in E as [Eh Es].
  repeat split; cbn; try assumption.
  - intros ->. discriminate Eb.
  - apply normal_deploytype.
Qed.

Ltac preserves_step_eqn :=
  match goal with
  | |- preserves _ (bind _ _) => apply preserves_bind; [|intro]
  | |- preserves _ (try_except _ _) => apply preserves_try; [|intros ? ? ?]
  | |- preserves _ (upsert _ _) => apply upsert_well_formed; assumption
  | |- preserves _ (if ?b then _ else _) => destruct b eqn:?
  | |- preserves _ (match ?x with _ => _ end) => destruct x eqn:?
  | H : (if ?b then _ else _) = Some _ |- _ =>
      destruct b; try discriminate H; injection H as <-
  | |- preserves _ _ => solve [eauto with preserve]
  end.

Lemma listen_body_well_formed payload :
  preserves (fun w => Forall well_formed (PUBSUB_QUEUE w)) (listen_body payload).
Proof.
  pose proof (queue_only_stable _ well_formed_queue_only) as HI.
  pose proof (preserves_svn_conversion _ well_formed_queue_only).
  unfold listen_body. repeat preserves_step_eqn.
Qed.

(** X12: whatever the messages, every entry the queue ever holds has a key
    that can be one, a branch, a source and a purge hostname that are not
    empty, and one of the three deploy types. *)
Theorem queued_entries_well_formed w :
  reachable w -> Forall well_formed (PUBSUB_QUEUE w).
Proof.
  induction 1 as [w E | w payload _ IH | w _ _].
  - rewrite E. constructor.
  - exact (listen_body_well_formed payload w IH).
  - rewrite run_cycle_empties. constructor.
Qed.

(** ** The svnpubsub conversion *)

Lemma fold_last_match {A B} (f : A -> bool) (g : A -> B) l p0 :
  fold_left (fun p e => if f e then g e else p) l p0
  = match rev (filter f l) with x :: _ => g x | [] => p0 end.
Proof.
  induction l as [|a l IH] using rev_ind; [reflexivity|].
  rewrite fold_left_app, filter_app, rev_app_distr. cbn [fold_left filter].
  destruct (f a); cbn [rev app]; [reflexivity | exact IH].
Qed.

Lemma assoc_cons {V} k (v : V) r key :
  assoc ((k, v) :: r) key = if String.eqb k key then Some v else assoc r key.
Proof. reflexivity. Qed.

Lemma svn_root_known uuid svn_root :
  assoc SVN_UUIDS uuid = Some svn_root ->
  svn_root = "https://svn-master.apache.org/repos/asf"%string
  \/ svn_root = "https://svn-master.apache.org/repos/infra"%string.
Proof.
  unfold SVN_UUIDS. rewrite !assoc_cons.
  destruct (String.eqb "13f79535-47bb-0310-9956-ffa450edef68" uuid).
  - intro H. injection H as H. left. symmetry. exact H.
  - destruct (String.eqb "90ea9780-b833-de11-8433-001ec94261de" uuid).
    + intro H. injection H as H. right. symmetry. exact H.
    + intro H. discriminate H.
Qed.

(** The URL of a commit is a path of the repository, or the common parent
    itself when that starts with a slash *)
Lemma svn_url_shape uuid svn_root cp :
  assoc SVN_UUIDS uuid = Some svn_root ->
  (Str.startswith cp "/" = true /\ Path.join svn_root [cp] = cp)
  \/ Path.join svn_root [cp] = (svn_root ++ "/" ++ cp)%string.
Proof.
  intro H. unfold Path.join, Path.join2. cbn [fold_left].
  destruct (Str.startswith cp "/"); [left; split; reflexivity|]. right.
  destruct (svn_root_known _ _ H) as [E | E]; rewrite E.
  - assert (C : String.eqb "https://svn-master.apache.org/repos/asf" ""
                || Str.endswith "https://svn-master.apache.org/repos/asf" "/" = false)
      by (vm_compute; reflexivity).
    rewrite C. reflexivity.
  - assert (C : String.eqb "https://svn-master.apache.org/repos/infra" ""
                || Str.endswith "https://svn-master.apache.org/repos/infra" "/" = false)
      by (vm_compute; reflexivity).
    rewrite C. reflexivity.
Qed.

Lemma svn_url_not_empty uuid svn_root cp :
  assoc SVN_UUIDS uuid = Some svn_root ->
  String.eqb (Path.join svn_root [cp]) "" = false.
Proof.
  intro H. destruct (svn_url_shape _ _ cp H) as [[S E] | E]; rewrite E.
  - destruct cp; [discriminate S | reflexivity].
  - destruct (svn_root_known _ _ H) as [-> | ->]; reflexivity.
Qed.

Lemma svn_url_not_git uuid svn_root cp :
  assoc SVN_UUIDS uuid = Some svn_root ->
  Str.startswith (Path.join svn_root [cp]) "https://gitbox.apache.org/repos/asf/" = false
  /\ Str.startswith (Path.join svn_root [cp]) "https://github.com/apache/" = false.
Proof.
  intro H. destruct (svn_url_shape _ _ cp H) as [[S E] | E]; rewrite E.
  - destruct cp as [|c cp]; [discriminate S|].
    cbn [Str.startswith] in S |- *.
    destruct (Ascii.eqb_spec c "/") as [-> |]; [|discriminate S].
    split; reflexivity.
  - destruct (svn_root_known _ _ H) as [-> | ->]; split; reflexivity.
Qed.

Lemma set_trace_nil w : set_trace (trace w ++ []) w = w.
Proof. destruct w. unfold set_trace. cbn. rewrite app_nil_r. reflexivity. Qed.

Lemma fold_m_track citems svn_url track payload w :
  exists evs,
    fold_m track
      (fun payload (entry : string * string) =>
         let (target, url) := entry in
         if Str.startswith svn_url url && Str.startswith target "/"
         then
           emit (Print "Found SVN match for %s in %s, faking a publish payload"
                       [AStr url; AStr target]) ;;
           let project :=
             if Str.contains target "/www/"
             then Str.replace (snd (Path.split target)) ".apache.org" ""
             else "infra" in
           ret (VDict
                  [("publish",
                    VDict [("project", VStr project);
                           ("source", VStr svn_url);
                           ("pusher", dict_get citems "committer" (VStr "root"));
                           ("deploytype", VStr "svn");
                           ("target", VStr target)])])
         else ret payload)
      payload w
    = (Normal (fold_left (fun p e => if svn_tracked svn_url e
                                     then fake_publish citems svn_url (fst e) else p)
                         track payload),
       set_trace (trace w ++ evs) w).
Proof.
  revert payload w. induction track as [|[target url] track IH]; intros payload w.
  - exists []. cbn [fold_m fold_left]. rewrite set_trace_nil. reflexivity.
  - cbn [fold_m fold_left]. unfold svn_tracked at 2. cbn [fst snd].
    unfold bind at 1.
    destruct (Str.startswith svn_url url && Str.startswith target "/").
    + unfold bind at 1. unfold emit at 1. unfold ret at 1.
      destruct (IH (fake_publish citems svn_url target)
                   (set_trace (trace w ++
                      [Print "Found SVN match for %s in %s, faking a publish payload"
                             [AStr url; AStr target]]) w)) as [evs E].
      exists (Print "Found SVN match for %s in %s, faking a publish payload"
                    [AStr url; AStr target] :: evs).
      unfold fake_publish at 1 in E. cbv zeta in E. rewrite E.
      f_equal. norm_world. reflexivity.
    + unfold ret at 1. destruct (IH payload w) as [evs E]. exists evs. exact E.
Qed.

Lemma svn_conversion_tracked payload citems svn_root files track w :
  svn_commit payload citems svn_root files ->
  assoc (svnconfig w) "track" = Some track ->
  let svn_url := Path.join svn_root [common_parent files] in
  exists evs,
    svn_conversion payload w
    = (Normal (fold_left (fun p e => if svn_tracked svn_url e
                                     then fake_publish citems svn_url (fst e) else p)
                         track payload),
       set_trace (trace w ++ evs) w).
Proof.
  intros (items & uuid & -> & Hc & Hd & Ht & Hr & Hu & Hf) Hk svn_url.
  unfold svn_conversion.
  unfold bind at 1. unfold py_in at 1, ret at 1. rewrite Hc.
  unfold bind at 1. unfold bind at 1. unfold py_getitem at 1. rewrite Hc.
  unfold ret at 1. rewrite Hd. unfold ret at 1. rewrite Ht.
  unfold bind at 1. unfold py_getitem at 1. rewrite Hc. unfold ret at 1. rewrite Hd.
  rewrite Hr. cbn [hashable negb]. rewrite Hu.
  unfold bind at 1. rewrite (common_parent_py_strings _ files w Hf).
  fold svn_url. unfold bind at 1. unfold emit at 1.
  unfold bind at 1. cbn [svnconfig set_trace].
  destruct (svnconfig w) as [|s cfg] eqn:Hs; [discriminate Hk|].
  cbn [Path.is_nil negb]. rewrite Hk.
  destruct (fold_m_track citems svn_url track (VDict items)
              (set_trace (trace w ++ [Print "Found commit from %s..." [AStr svn_url]]) w))
    as [evs E].
  exists (Print "Found commit from %s..." [AStr svn_url] :: evs).
  match goal with
  | |- ?L = _ => match type of E with ?L' = _ => change L with L' end
  end.
  rewrite E. f_equal. norm_world. reflexivity.
Qed.

(** X13: a commit to a tracked subversion directory.  On a publishing host
    it is queued under the tracked directory with the URL of the commit as
    source and the branch asf-site, but with the deploy type website, not
    svn: the made-up payload carries its type under the key deploytype,
    which is not the key that is read.  On a staging host nothing is
    queued.  When several tracked entries match, the last one counts. *)
Theorem svn_commit_queued_as_website
        payload citems svn_root files track ms target url w :
  svn_commit payload citems svn_root files ->
  assoc (svnconfig w) "track" = Some track ->
  let svn_url := Path.join svn_root [common_parent files] in
  svn_matches svn_url track = ms ++ [(target, url)] ->
  let r := listen_body payload w in
  fst r = Normal tt
  /\ PUBSUB_QUEUE (snd r)
     = if PUBLISH w
       then dict_set (PUBSUB_QUEUE w) (VStr target)
              {| o_source := VStr svn_url; o_branch := "asf-site";
                 o_committer := dict_get citems "committer" (VStr "root");
                 o_hostname := VStr target; o_deploytype := "website" |}
       else PUBSUB_QUEUE w.
Proof.
  intros HC Hk svn_url HM r. subst r.
  destruct (svn_conversion_tracked payload citems svn_root files track w HC Hk)
    as [evs E]. fold svn_url in E.
  rewrite fold_last_match in E. fold (svn_matches svn_url track) in E.
  rewrite HM, rev_app_distr in E. cbn [rev app fst] in E.
  assert (HT : exists t, target = String "/" t).
  { assert (I : In (target, url) (svn_matches svn_url track))
      by (rewrite HM; apply in_or_app; right; left; reflexivity).
    apply filter_In in I as [_ I]. apply andb_prop in I as [_ I].
    cbn [fst] in I. destruct target as [|c t]; [discriminate I|].
    cbn [Str.startswith] in I. destruct (Ascii.eqb_spec c "/") as [-> |];
      [eexists; reflexivity | discriminate I]. }
  destruct HT as [t ->].
  destruct HC as (items & uuid & -> & _ & _ & _ & _ & Hu & _).
  pose proof (svn_url_not_empty uuid svn_root (common_parent files) Hu) as HS.
  fold svn_url in HS.
  clearbody svn_url. destruct svn_url as [|c0 u]; [discriminate HS|].
  enough (EL : exists w2,
             listen_body (VDict items) w = (Normal tt, w2)
             /\ PUBSUB_QUEUE w2
                = if PUBLISH w
                  then dict_set (PUBSUB_QUEUE w) (VStr (String "/" t))
                         {| o_source := VStr (String c0 u); o_branch := "asf-site";
                            o_committer := dict_get citems "committer" (VStr "root");
                            o_hostname := VStr (String "/" t);
                            o_deploytype := "website" |}
                  else PUBSUB_QUEUE w).
  { destruct EL as (w2 & -> & Q). split; [reflexivity | exact Q]. }
  unfold listen_body, try_except.
  unfold bind at 1. unfold bind at 1. unfold bind at 1. rewrite E.
  unfold fake_publish. cbv zeta.
  set (project := if Str.contains (String "/" t) "/www/" then _ else _).
  clearbody project.
  set (committer := dict_get citems "committer" (VStr "root")). clearbody committer.
  destruct (PUBLISH w) eqn:HP; cbn [negb];
    cbv beta iota zeta delta
      [bind ret raise py_in py_getitem py_get dict_has dict_get existsb fst snd
       String.eqb Ascii.eqb Bool.eqb orb andb negb truthy Path.is_nil py_iadd_str
       Str.replace Str.replace_from Str.startswith String.length Nat.sub
       String.append syslog emit upsert hashable is_ValueError];
    (eexists; split; [reflexivity | norm_world; reflexivity]).
Qed.

(** X14: the URL of a commit to a listed subversion repository is accepted
    as a source by the legacy type only: for every other deploy type
    [deploy_site] logs one warning, the rejection, and does nothing
    else. *)
Theorem svn_source_needs_legacy_type
        uuid svn_root cp deploydir branch committer deploytype w :
  assoc SVN_UUIDS uuid = Some svn_root ->
  deploytype <> "svn"%string ->
  exists fmt args,
    deploy_site (VStr deploydir) (VStr (Path.join svn_root [cp])) branch
                committer deploytype w
    = (Normal tt, set_trace (trace w ++ [Syslog LOG_WARNING fmt args]) w).
Proof.
  intros Hu Hn. destruct (svn_url_not_git uuid svn_root cp Hu) as [G1 G2].
  unfold deploy_site. unfold bind at 1. unfold prevalidation.
  destruct (negb _ || _); [eexists _, _; reflexivity|].
  destruct (negb _); [eexists _, _; reflexivity|].
  destruct (String.eqb_spec deploytype "svn") as [|_]; [contradiction|].
  cbn [negb]. rewrite G1, G2. cbn [negb andb].
  eexists _, _; reflexivity.
Qed.

(** X17: a commit whose files do not all lie under the parent directory
    of one of them triggers nothing.  [common_parent] gives the root for
    it, joining the root onto the URL of the repository gives the root
    again, and no tracked URL of more than one character is a prefix of
    it: the message is left as it is, and unless it carries the key of this
    host as well nothing is queued. *)
Theorem svn_commit_across_directories_is_dropped
        payload citems svn_root files track w :
  svn_commit payload citems svn_root files ->
  common_parent files = "/"%string ->
  assoc (svnconfig w) "track" = Some track ->
  Forall (fun entry => 1 < String.length (snd entry)) track ->
  (forall items, payload = VDict items -> dict_has items (expected_action w) = false) ->
  let r := listen_body payload w in
  fst r = Normal tt /\ PUBSUB_QUEUE (snd r) = PUBSUB_QUEUE w.
Proof.
  intros HC HR Hk HT HA r. subst r.
  destruct (svn_conversion_tracked payload citems svn_root files track w HC Hk)
    as [evs E].
  rewrite HR in E.
  assert (J : Path.join svn_root ["/"%string] = "/"%string) by reflexivity.
  rewrite J in E. rewrite fold_last_match in E.
  assert (M : filter (svn_tracked "/") track = []).
  { clear - HT. induction HT as [|[target url] l H _ IH]; [reflexivity|].
    cbn [filter]. rewrite IH. unfold svn_tracked. cbn [fst snd] in *.
    destruct url as [|c [|c' url]]; cbn [String.length] in H; try lia.
    cbn [Str.startswith]. rewrite andb_false_r. reflexivity. }
  rewrite M in E. cbn [rev] in E.
  destruct HC as (items & uuid & -> & _).
  specialize (HA items eq_refl). unfold expected_action in HA.
  enough (EL : exists w2, listen_body (VDict items) w = (Normal tt, w2)
                          /\ PUBSUB_QUEUE w2 = PUBSUB_QUEUE w).
  { destruct EL as (w2 & -> & Q). split; [reflexivity | exact Q]. }
  unfold listen_body, try_except.
  unfold bind at 1. unfold bind at 1. unfold bind at 1. rewrite E.
  cbv beta iota zeta delta [bind ret py_in].
  destruct (PUBLISH w); cbn [negb]; rewrite HA;
    (eexists; split; [reflexivity | reflexivity]).
Qed.

(** ** Native requests *)

(** ** From the message to the checkout *)

(** ** What escapes from [deploy_site] *)

Lemma raises_only_ret {A} S (a : A) : raises_only S (ret a).
Proof. intros w e H; discriminate H. Qed.

Lemma raises_only_raise {A} (S : exn -> Prop) e : S e -> raises_only S (@raise A e).
Proof. intros H w e' E. injection E as <-. exact H. Qed.

Lemma raises_only_read {A} S (f : world -> A) :
  raises_only S (fun w => (Normal (f w), w)).
Proof. intros w e H; discriminate H. Qed.

Lemma raises_only_bind {A B} S (m : M A) (k : A -> M B) :
  raises_only S m -> (forall a, raises_only S (k a)) -> raises_only S (bind m k).
Proof.
  intros Hm Hk w e. unfold bind. specialize (Hm w).
  destruct (m w) as [[a| e' |] w']; cbn [fst] in *.
  - apply Hk.
  - intro E. injection E as <-. apply Hm. reflexivity.
  - discriminate.
Qed.

Lemma raises_only_try {A} S' S (m : M A) (h : exn -> option (M A)) :
  raises_only S' m ->
  (forall e, S' e -> match h e with
                     | Some k => raises_only S k
                     | None => S e
                     end) ->
  raises_only S (try_except m h).
Proof.
  intros Hm Hh w e. unfold try_except. specialize (Hm w).
  destruct (m w) as [[a| e' |] w']; cbn [fst] in *; try discriminate.
  specialize (Hh e' (Hm e' eq_refl)).
  destruct (h e') as [k|].
  - apply Hh.
  - intro E. injection E as <-. exact Hh.
Qed.

Lemma raises_only_emit S ev : raises_only S (emit ev).
Proof. intros w e H; discriminate H. Qed.

Lemma raises_only_syslog S p fmt args : raises_only S (syslog p fmt args).
Proof. apply raises_only_emit. Qed.


















(** ** What ends the listener *)

Lemma bind_ret {A B} (a : A) (k : A -> M B) : bind (ret a) k = k a.
Proof. reflexivity. Qed.

Lemma raises_only_bind_raise {A B} (S : exn -> Prop) e (k : A -> M B) :
  S e -> raises_only S (bind (raise e) k).
Proof. intros H w e' E. injection E as <-. exact H. Qed.

Lemma raises_only_fold_m {A St} S (l : list A) (body : St -> A -> M St) s :
  (forall s x, raises_only S (body s x)) -> raises_only S (fold_m l body s).
Proof.
  intro H. revert s. induction l as [|x l IH]; intro s; cbn [fold_m].
  - apply raises_only_ret.
  - apply raises_only_bind; [apply H | intro; apply IH].
Qed.

Lemma raises_only_py_startswith v p : raises_only dynamic_failure (py_startswith v p).
Proof.
  destruct v; cbn [py_startswith];
    first [apply raises_only_ret | apply raises_only_raise; right; reflexivity].
Qed.

Lemma raises_only_all_startswith files p :
  raises_only dynamic_failure (all_startswith files p).
Proof.
  induction files as [|f files IH]; cbn [all_startswith].
  - apply raises_only_ret.
  - apply raises_only_bind; [apply raises_only_py_startswith|].
    intros []; [exact IH | apply raises_only_ret].
Qed.

Ltac dyn_member := unfold dynamic_failure; first [left; reflexivity | right; reflexivity].

Ltac dyn_step :=
  match goal with
  | |- raises_only _ (bind _ _) => apply raises_only_bind; [|intro]
  | |- raises_only _ (ret _) => apply raises_only_ret
  | |- raises_only _ (raise _) => apply raises_only_raise; dyn_member
  | |- raises_only _ (fun w => (Normal _, _)) =>
      let H := fresh in intros ? ? H; discriminate H
  | |- raises_only _ (syslog _ _ _) => apply raises_only_syslog
  | |- raises_only _ (emit _) => apply raises_only_emit
  | |- raises_only _ (fold_m _ _ _) => apply raises_only_fold_m; intros
  | |- raises_only _ (all_startswith _ _) => apply raises_only_all_startswith
  | |- raises_only _ (py_startswith _ _) => apply raises_only_py_startswith
  | |- raises_only _ (py_get _ _ _) => unfold py_get
  | |- raises_only _ (py_in _ _) => unfold py_in
  | |- raises_only _ (py_iter _) => unfold py_iter
  | |- raises_only _ (py_iadd_str _ _) => unfold py_iadd_str
  | |- raises_only _ (upsert _ _) => unfold upsert
  | |- raises_only _ (if ?b then _ else _) => destruct b
  | |- raises_only _ (match ?x with _ => _ end) => destruct x
  | H : forall x, raises_only ?S (?f x) |- raises_only ?S (?f _) => apply H
  end.

Ltac dyn_auto := repeat dyn_step.

Lemma common_parent_py_failures changed :
  raises_only dynamic_failure (common_parent_py changed).
Proof. unfold common_parent_py. dyn_auto. Qed.

Lemma svn_conversion_failures payload :
  raises_only dynamic_failure (svn_conversion payload).
Proof.
  pose proof common_parent_py_failures as HC.
  unfold svn_conversion.
  destruct payload as [| | | s | l | items]; cbn [py_in];
    try (apply raises_only_bind_raise; dyn_member).
  - rewrite bind_ret. destruct (Str.contains s "commit"); cbn [py_getitem].
    + apply raises_only_bind; [|intro; dyn_auto].
      apply raises_only_bind_raise; dyn_member.
    + rewrite bind_ret. apply raises_only_ret.
  - rewrite bind_ret. destruct (existsb _ l); cbn [py_getitem].
    + apply raises_only_bind; [|intro; dyn_auto].
      apply raises_only_bind_raise; dyn_member.
    + rewrite bind_ret. apply raises_only_ret.
  - rewrite bind_ret. unfold py_getitem.
    destruct (dict_has items "commit").
    + dyn_auto.
    + rewrite bind_ret. apply raises_only_ret.
Qed.

(** A lookup behind a membership test *)
Lemma raises_only_guarded {B} v key (k : pyval -> M B) (g : M B) :
  (forall x, raises_only dynamic_failure (k x)) ->
  raises_only dynamic_failure g ->
  raises_only dynamic_failure
    (b <- py_in key v ;; if b : bool then x <- py_getitem v key ;; k x else g).
Proof.
  intros Hk Hg.
  destruct v as [| | | s | l | items]; cbn [py_in py_getitem];
    try (apply raises_only_bind_raise; dyn_member).
  - rewrite bind_ret. destruct (Str.contains s key); [|exact Hg].
    apply raises_only_bind_raise; dyn_member.
  - rewrite bind_ret. destruct (existsb _ l); [|exact Hg].
    apply raises_only_bind_raise; dyn_member.
  - rewrite bind_ret. destruct (dict_has items key); [|exact Hg].
    rewrite bind_ret. apply Hk.
Qed.

(** X20: what can end the listener.  Whatever the message, the body of the
    loop of [listen] raises nothing but [TypeError] and [AttributeError]:
    never a [KeyError], the lookups being made behind a membership test,
    and never a [ValueError], the only exception its handler is for. *)
Theorem listen_body_failures payload w e :
  fst (listen_body payload w) = Raised e -> e = TypeError \/ e = AttributeError.
Proof.
  revert w e. change (raises_only dynamic_failure (listen_body payload)).
  pose proof svn_conversion_failures as HS.
  unfold listen_body.
  apply (raises_only_try dynamic_failure).
  - apply raises_only_bind; [apply raises_only_read | intro publish].
    apply raises_only_bind; [apply raises_only_read | intro repr].
    apply raises_only_bind; [apply HS | intro converted].
    apply raises_only_guarded; [intro action | apply raises_only_ret].
    dyn_auto.
  - intros e [-> | ->]; cbn [is_ValueError]; dyn_member.
Qed.
(** ** The properties of the surrounding code on sample machines *)

(** X1 on a commit to two pages of one directory *)
Lemma common_parent_one_directory_witness :
  common_parent ["site/trunk/a.html"; "site/trunk/b.html"]%string
  = "site/trunk/"%string.
Proof.
  apply (common_parent_one_directory "site/trunk" ["a.html"; "b.html"]%string);
    [discriminate | discriminate | reflexivity | repeat constructor].
Defined.

(** X2 on a list of paths, on a list that holds a number, and on null *)
Lemma common_parent_py_typing_witness :
  let w := quiet_world false "" ["/www"]%string in
  common_parent_py (VList [VStr "a/x"; VStr "a/y"]) w = (Normal "a/"%string, w)
  /\ type_failure (common_parent_py (VList [VStr "a/x"; VInt 1]) w) w
  /\ common_parent_py VNone w = (Raised TypeError, w).
Proof.
  intro w. split; [|split].
  - destruct (common_parent_py_typing (VList [VStr "a/x"; VStr "a/y"]) w) as [A _].
    apply (A ["a/x"; "a/y"]%string). reflexivity.
  - destruct (common_parent_py_typing (VList [VStr "a/x"; VInt 1]) w) as (_ & B & _).
    apply (B [VStr "a/x"; VInt 1] (VInt 1));
      [reflexivity | right; left; reflexivity | discriminate].
  - destruct (common_parent_py_typing VNone w) as (_ & _ & C).
    apply C; [reflexivity | discriminate].
Defined.


(** X4 on a queued source that is null *)
Lemma checkout_git_repo_bad_source_removes_witness :
  let w := quiet_world false "" ["/www"; "/www/foo"]%string in
  let r := checkout_git_repo "/www/foo" VNone "asf-site" w in
  fst r = Raised TypeError /\ dirs (snd r) "/www/foo" = false.
Proof.
  intros w r.
  destruct (checkout_git_repo_bad_source_removes w "/www/foo" VNone "asf-site")
    as (E & _ & D); [discriminate | reflexivity | reflexivity |].
  split; [exact E|]. rewrite D. reflexivity.
Defined.

(** X5 on a working copy whose update outlives the timeout *)
Lemma do_svn_up_always_returns_witness :
  let w := machine false "" ["/www"; "/www/foo"]%string
                   (fun _ d => slow (Some 200%Z) d) in
  fst (do_svn_up "/www/foo" w) = Normal tt.
Proof.
  intro w. destruct (do_svn_up_always_returns w "/www/foo") as [A _].
  destruct A as [N _]; [reflexivity | exact N].
Defined.




(** X9 on a queue that holds a request that is rejected and one that is
    cloned *)
Lemma drain_cycle_isolates_failures_witness :
  let w := upserts [(VStr "../etc", site_opts "etc" "asf-site");
                    (VStr "foo", site_opts "foo" "asf-site")]
                   (quiet_world false "" ["/www"]%string) in
  run_cycle w = emit (Sleep 5) (run_entries (PUBSUB_QUEUE w) (set_queue [] w)).
Proof.
  intro w. destruct (drain_cycle_isolates_failures w) as (_ & _ & A).
  apply A. intros n argv c d. discriminate.
Defined.

(** X10 on a keep-alive message and a commit to a git repository *)
Lemma listen_skips_foreign_messages_witness :
  let w := quiet_world true "key" ["/www"]%string in
  listen [VDict [("stillalive", VInt 1)];
          VDict [("commit", VDict [("type", VStr "git")])]] w
  = syslog LOG_WARNING "Disconnected from %s, reconnecting" [AStr PUBSUB_URL] w.
Proof.
  intro w.
  apply (listen_skips_foreign_messages w).
  constructor; [|constructor; [|constructor]].
  - left. eexists. repeat split; reflexivity.
  - right. split.
    + eexists. split; [reflexivity|]. split; [reflexivity|].
      left. reflexivity.
    + eexists. split; reflexivity.
Defined.

(** X11 on a message that is a number, followed by a request *)
Lemma listen_scalar_message_raises_witness :
  let w := quiet_world false "" ["/www"]%string in
  listen [VInt 3; site_request "staging" "foo" "asf-site"] w = (Raised TypeError, w).
Proof.
  intro w.
  apply (listen_scalar_message_raises w (VInt 3)); [reflexivity | discriminate].
Defined.

(** X12 after a request for foo *)
Lemma queued_entries_well_formed_witness :
  let w := quiet_world false "" ["/www"]%string in
  Forall well_formed
    (PUBSUB_QUEUE (snd (listen_body (site_request "staging" "foo" "asf-site") w))).
Proof.
  intro w. apply queued_entries_well_formed.
  apply reach_listen. apply reach_start. reflexivity.
Defined.

(** X13 on a commit to the site of the foundation, on a publishing host *)
Lemma svn_commit_queued_as_website_witness :
  let url := "https://svn-master.apache.org/repos/asf/infrastructure/site/trunk"%string in
  let w := tracking_host true ["/www"]%string [("/www/www.apache.org/content", url)]%string in
  let commit := [("type", VStr "svn");
                 ("repository", VStr "13f79535-47bb-0310-9956-ffa450edef68");
                 ("committer", VStr "humbedooh");
                 ("changed", VDict [("infrastructure/site/trunk/content/index.html",
                                     VDict []);
                                    ("infrastructure/site/trunk/content/foo.html",
                                     VDict [])])]%string in
  PUBSUB_QUEUE (snd (listen_body (VDict [("commit", VDict commit)]) w))
  = [(VStr "/www/www.apache.org/content",
      {| o_source := VStr (url ++ "/content/"); o_branch := "asf-site";
         o_committer := VStr "humbedooh";
         o_hostname := VStr "/www/www.apache.org/content";
         o_deploytype := "website" |})].
Proof.
  intros url w commit.
  destruct (svn_commit_queued_as_website
              (VDict [("commit", VDict commit)]) commit
              "https://svn-master.apache.org/repos/asf"
              ["infrastructure/site/trunk/content/index.html";
               "infrastructure/site/trunk/content/foo.html"]%string
              [("/www/www.apache.org/content", url)]%string []
              "/www/www.apache.org/content" url w) as [_ Q].
  - eexists _, _. repeat split; reflexivity.
  - reflexivity.
  - reflexivity.
  - exact Q.
Defined.

(** X14 on the entry the commit above leaves in the queue *)
Lemma svn_source_needs_legacy_type_witness :
  let w := quiet_world true "key" ["/www"]%string in
  exists fmt args,
    deploy_site (VStr "/www/www.apache.org/content")
      (VStr (Path.join "https://svn-master.apache.org/repos/asf"
                       ["infrastructure/site/trunk/content/"]%string))
      "asf-site" (VStr "humbedooh") "website" w
    = (Normal tt, set_trace (trace w ++ [Syslog LOG_WARNING fmt args]) w).
Proof.
  intro w.
  apply (svn_source_needs_legacy_type "13f79535-47bb-0310-9956-ffa450edef68");
    [reflexivity | discriminate].
Defined.



(** X17 on a commit to pages of two directories of a tracked site *)
Lemma svn_commit_across_directories_is_dropped_witness :
  let url := "https://svn-master.apache.org/repos/asf/site"%string in
  let w := tracking_host true ["/www"]%string [("/www/foo.apache.org", url)]%string in
  let commit := [("type", VStr "svn");
                 ("repository", VStr "13f79535-47bb-0310-9956-ffa450edef68");
                 ("changed", VList [VStr "site/a/x.html"; VStr "site/b/y.html"])]%string in
  PUBSUB_QUEUE (snd (listen_body (VDict [("commit", VDict commit)]) w)) = [].
Proof.
  intros url w commit.
  destruct (svn_commit_across_directories_is_dropped
              (VDict [("commit", VDict commit)]) commit
              "https://svn-master.apache.org/repos/asf"
              ["site/a/x.html"; "site/b/y.html"]%string
              [("/www/foo.apache.org", url)]%string w) as [_ Q].
  - eexists _, _. repeat split; reflexivity.
  - reflexivity.
  - reflexivity.
  - repeat constructor.
  - intros items E. injection E as <-. reflexivity.
  - exact Q.
Defined.

Lemma app_two {A} (l : list A) a b : l ++ [a; b] = (l ++ [a]) ++ [b].
Proof. rewrite <- app_assoc. reflexivity. Qed.

(** X18 on a first request for foo on a host that cannot reach the cache *)
Lemma failed_purge_is_logged_as_failed_deploy_witness :
  let w := offline_host ["/www"]%string in
  let r := run_entry (VStr "foo.apache.org", site_opts "foo" "asf-site") w in
  fst r = Normal tt
  /\ exists evs,
      trace (snd r)
      = evs ++ [Syslog LOG_WARNING "BORK: Could not deploy to %s: %s"
                       [AVal (VStr "foo.apache.org"); AExn RequestException]].
Proof.
  intros w r.
  destruct (failed_purge_is_logged_as_failed_deploy
              w (VStr "foo.apache.org") (site_opts "foo" "asf-site")) as [N T];
    [reflexivity | reflexivity | discriminate | discriminate | reflexivity |].
  split; [exact N|]. fold r in T. eexists. rewrite T. apply app_two.
Defined.


(** X20 on a request whose branch is null *)
Lemma listen_body_failures_witness :
  let w := quiet_world true "key" ["/www"]%string in
  let payload := VDict [("publish",
                         VDict [("project", VStr "foo");
                                ("source", VStr "https://gitbox.apache.org/repos/asf/foo.git");
                                ("branch", VNone)])]%string in
  exists e,
    fst (listen_body payload w) = Raised e /\ (e = TypeError \/ e = AttributeError).
Proof.
  intros w payload. exists AttributeError. split; [reflexivity|].
  apply (listen_body_failures payload w). reflexivity.
Defined.

(** X21 on a checkout in which the command that reads the origin never
    ends *)
Lemma deploy_site_metadata_unguarded_witness :
  let origin := "https://gitbox.apache.org/repos/asf/foo.git"%string in
  let w := machine false "" ["/www"; "/www/foo"]%string
                   (faulty_exec origin "asf-site" "config" (slow None)) in
  deploy_site (VStr "foo") (VStr origin) "asf-site" (VStr "root") "website" w
  = (Blocked, after_origin w "/www/foo").
Proof.
  intros origin w.
  destruct (deploy_site_metadata_unguarded
              w "foo" (VStr origin) "asf-site" (VStr "root") "website") as [A _];
    [reflexivity | reflexivity | reflexivity |].
  apply A. reflexivity.
Defined.
